(** * SmartAI-MLInfrastructure

    A shallow embedding of the two Flask scripts of the repository:
    - [EnvSetup.py]: the mock DCIM server (rack power, temperature, cooling
      and health endpoints) and the command line entry point;
    - [ServerTest.py]: the demonstration REST API ([TestServerAPI]).

    Python values are an inductive type, dictionaries are association lists
    in insertion order, handlers are state-passing functions over an explicit
    world (random source, wall clock, log or standard output, network), and
    exceptions are an explicit result type. *)

From Stdlib Require Import ZArith QArith Qround List String Ascii Bool Lia Lqa.
Import ListNotations.
Set Warnings "-register-all".
Local Open Scope string_scope.
Local Open Scope list_scope.
Local Open Scope Z_scope.

Infix "+++" := String.append (right associativity, at level 60).

(* ===================================================================== *)
(** ** Python values *)
(* ===================================================================== *)

(** The values the handlers build and hand to [jsonify]: a [dict] literal is
    the list of its items in the order they are written. *)
Inductive pyval : Type :=
| PNone
| PBool (b : bool)
| PInt (n : Z)
| PFloat (q : Q)
| PStr (s : string)
| PList (l : list pyval)
| PDict (d : list (string * pyval)).

(** [d[k]] / [d.get(k)]: the first item stored under [k]. *)
Fixpoint dict_get (k : string) (d : list (string * pyval)) : option pyval :=
  match d with
  | [] => None
  | (k', v) :: d' => if String.eqb k k' then Some v else dict_get k d'
  end.

(** The field [k] of a value, when the value is a dictionary that has it. *)
Definition field (k : string) (v : pyval) : option pyval :=
  match v with
  | PDict d => dict_get k d
  | _ => None
  end.

(** [del d[k]] on a copy: every item but those stored under [k]. *)
Definition dict_remove (k : string) (d : list (string * pyval))
  : list (string * pyval) :=
  filter (fun kv => negb (String.eqb k (fst kv))) d.

Definition keys (d : list (string * pyval)) : list string := map fst d.

(** [range(a, b)] *)
Definition py_range (a b : Z) : list Z :=
  map (fun k => a + Z.of_nat k) (seq 0 (Z.to_nat (b - a))).

(** [enumerate(l)] *)
Definition enumerate {A : Type} (l : list A) : list (Z * A) :=
  combine (py_range 0 (Z.of_nat (List.length l))) l.

(** [zip(l1, l2)] *)
Definition zip {A B : Type} (l1 : list A) (l2 : list B) : list (A * B) :=
  combine l1 l2.

(* ===================================================================== *)
(** ** Decimal formatting: [str(n)], [f'{n}'] and [f'{n:0wd}'] *)
(* ===================================================================== *)

Definition digit_char (d : Z) : ascii := ascii_of_nat (48 + Z.to_nat d).

(** The [w] low decimal digits of [n], most significant first. *)
Fixpoint digits (w : nat) (n : Z) : string :=
  match w with
  | O => ""
  | S w' => digits w' (n / 10) +++ String (digit_char (n mod 10)) ""
  end.

Fixpoint ndigits_aux (fuel : nat) (n : Z) : nat :=
  match fuel with
  | O => 1%nat
  | S f => if n <? 10 then 1%nat else S (ndigits_aux f (n / 10))
  end.

(** Number of decimal digits of a natural number ([1] for [0]). *)
Definition ndigits (n : Z) : nat := ndigits_aux (Z.to_nat (Z.log2 n)) n.

(** [format(n, '0wd')]: sign first, then zeros up to the width [w]. *)
Definition fmt_0d (w : nat) (n : Z) : string :=
  if n <? 0
  then "-" +++ digits (Nat.max (w - 1) (ndigits (- n))) (- n)
  else digits (Nat.max w (ndigits n)) n.

(** [str(n)] *)
Definition str_int (n : Z) : string := fmt_0d 0 n.

(* ===================================================================== *)
(** ** [round(x, 1)] on the value a float denotes *)
(* ===================================================================== *)

(** A float is taken as the rational it denotes.  [round(x, 1)] is the
    correctly rounded one-decimal value of [x] (ties to even), which is what
    the JSON body shows. *)
Definition round_half_even (x : Q) : Z :=
  let f := Qfloor x in
  match Qcompare (x - inject_Z f) (1 # 2) with
  | Lt => f
  | Gt => f + 1
  | Eq => if Z.even f then f else f + 1
  end.

Definition round1 (x : Q) : Q := round_half_even (x * inject_Z 10) # 10.

(* ===================================================================== *)
(** ** [datetime] *)
(* ===================================================================== *)

Record datetime : Type := mkDatetime {
  year : Z; month : Z; day : Z;
  hour : Z; minute : Z; second : Z; microsecond : Z
}.

(** The field ranges of a [datetime] object. *)
Definition valid_datetime (d : datetime) : Prop :=
  1 <= year d <= 9999 /\ 1 <= month d <= 12 /\ 1 <= day d <= 31 /\
  0 <= hour d <= 23 /\ 0 <= minute d <= 59 /\ 0 <= second d <= 59 /\
  0 <= microsecond d <= 999999.

(** The fraction [isoformat] appends: [.ffffff] when the microsecond field
    is not zero. *)
Definition iso_fraction (us : Z) : string :=
  if us =? 0 then "" else "." +++ fmt_0d 6 us.

(** [datetime.isoformat()]: [YYYY-MM-DDTHH:MM:SS], followed by the
    fraction. *)
Definition isoformat (d : datetime) : string :=
  fmt_0d 4 (year d) +++ "-" +++ fmt_0d 2 (month d) +++ "-" +++
  fmt_0d 2 (day d) +++ "T" +++ fmt_0d 2 (hour d) +++ ":" +++
  fmt_0d 2 (minute d) +++ ":" +++ fmt_0d 2 (second d) +++
  iso_fraction (microsecond d).

(** [strftime("%Y-%m-%dT%H:%M:%SZ")] *)
Definition strftime_metrics (d : datetime) : string :=
  fmt_0d 4 (year d) +++ "-" +++ fmt_0d 2 (month d) +++ "-" +++
  fmt_0d 2 (day d) +++ "T" +++ fmt_0d 2 (hour d) +++ ":" +++
  fmt_0d 2 (minute d) +++ ":" +++ fmt_0d 2 (second d) +++ "Z".

(** Python orders naive datetimes as the tuples of their fields. *)
Fixpoint lex_compare (l1 l2 : list Z) : comparison :=
  match l1, l2 with
  | [], [] => Eq
  | [], _ :: _ => Lt
  | _ :: _, [] => Gt
  | x :: l1', y :: l2' =>
      match x ?= y with
      | Eq => lex_compare l1' l2'
      | c => c
      end
  end.

Definition datetime_fields (d : datetime) : list Z :=
  [year d; month d; day d; hour d; minute d; second d; microsecond d].

Definition datetime_compare (d1 d2 : datetime) : comparison :=
  lex_compare (datetime_fields d1) (datetime_fields d2).

Definition datetime_le (d1 d2 : datetime) : Prop :=
  datetime_compare d1 d2 <> Gt.

(** The order on the timestamp strings of the responses. *)
Definition string_le (s1 s2 : string) : Prop := String.compare s1 s2 <> Gt.

(* ===================================================================== *)
(** ** Exceptions *)
(* ===================================================================== *)

(** [KeyboardInterrupt] and [SystemExit] derive from [BaseException] only;
    everything an [except Exception] clause catches is an [Exception] with
    the name of its class. *)
Inductive exn : Type :=
| KeyboardInterrupt
| SystemExit (code : Z)
| Exception (cls msg : string).

Inductive result (A : Type) : Type :=
| Ok (a : A)
| Raised (e : exn).
Arguments Ok {A} a.
Arguments Raised {A} e.

(* ===================================================================== *)
(** ** The slice of Flask the scripts use *)
(* ===================================================================== *)

Module Flask.

Record response : Type := mkResponse {
  status_code : Z;
  json_body : pyval
}.

(** [jsonify(v)]: a 200 response whose body is the JSON rendering of [v]. *)
Definition jsonify (v : pyval) : response :=
  {| status_code := 200; json_body := v |}.

(** A request: the method, the path and the query arguments.  A view reaches
    the query only through [flask.request], which neither script imports. *)
Record request : Type := mkRequest {
  req_method : string;
  req_path : string;
  req_query : list (string * string)
}.

Definition GET (path : string) : request :=
  {| req_method := "GET"; req_path := path; req_query := [] |}.

(** *** URL rules *)

Fixpoint split_on (c : ascii) (s : string) : list string :=
  match s with
  | EmptyString => [""]
  | String a s' =>
      if Ascii.eqb a c then "" :: split_on c s'
      else match split_on c s' with
           | [] => [String a ""]
           | seg :: rest => String a seg :: rest
           end
  end.

(** The text before a closing [>] that ends the string. *)
Fixpoint until_gt (s : string) : option string :=
  match s with
  | EmptyString => None
  | String a s' =>
      if Ascii.eqb a ">" then
        match s' with EmptyString => Some "" | _ => None end
      else option_map (String a) (until_gt s')
  end.

(** The text after the first [:], or the whole text without one. *)
Fixpoint after_colon (s : string) : option string :=
  match s with
  | EmptyString => None
  | String a s' => if Ascii.eqb a ":" then Some s' else after_colon s'
  end.

(** The variable a rule segment [<name>] or [<converter:name>] binds. *)
Definition seg_var (seg : string) : option string :=
  match seg with
  | String a inner =>
      if Ascii.eqb a "<" then
        match until_gt inner with
        | Some body =>
            match after_colon body with
            | Some name => Some name
            | None => Some body
            end
        | None => None
        end
      else None
  | EmptyString => None
  end.

Fixpoint match_segments (rule path : list string)
  : option (list (string * string)) :=
  match rule, path with
  | [], [] => Some []
  | r :: rule', p :: path' =>
      match seg_var r with
      | Some x =>
          if String.eqb p "" then None
          else option_map (cons (x, p)) (match_segments rule' path')
      | None =>
          if String.eqb r p then match_segments rule' path' else None
      end
  | _, _ => None
  end.

(** The view arguments a rule binds on a path, when it matches. *)
Definition match_rule (rule path : string)
  : option (list (string * string)) :=
  match_segments (split_on "/" rule) (split_on "/" path).

Section App.
Context {W : Type}.

(** A view function: its name, and its body by the parameters its [def]
    declares (the scripts have views of no and of one parameter). *)
Inductive view : Type :=
| View0 (name : string) (body : W -> result response * W)
| View1 (name param : string) (body : string -> W -> result response * W).

(** A registered route: the rule, the methods of the decorator, the view.
    [HEAD] and [OPTIONS], which Flask answers by itself for a [GET] route,
    are not routed here. *)
Record route : Type := mkRoute {
  r_rule : string;
  r_methods : list string;
  r_view : view
}.

Definition type_error (msg : string) : exn := Exception "TypeError" msg.

Definition unexpected_keyword (name k : string) : exn :=
  type_error (name +++ "() got an unexpected keyword argument '"
              +++ k +++ "'").

Definition missing_argument (name param : string) : exn :=
  type_error (name +++ "() missing 1 required positional argument: '"
              +++ param +++ "'").

(** The call of a view with the view arguments as keyword arguments:
    Python binds them to the parameters and raises [TypeError] when
    they do not fit. *)
Definition call_view (v : view) (kwargs : list (string * string)) (w : W)
  : result response * W :=
  match v, kwargs with
  | View0 _ body, [] => body w
  | View0 name _, (k, _) :: _ => (Raised (unexpected_keyword name k), w)
  | View1 name param body, [] => (Raised (missing_argument name param), w)
  | View1 name param body, [(k, x)] =>
      if String.eqb k param then body x w
      else (Raised (unexpected_keyword name k), w)
  | View1 name param body, (k, x) :: (k', _) :: _ =>
      (Raised (unexpected_keyword name (if String.eqb k param then k' else k)),
       w)
  end.

Definition matches_path (path : string) (r : route) : bool :=
  match match_rule (r_rule r) path with Some _ => true | None => false end.

Definition allows (method : string) (r : route) : bool :=
  existsb (String.eqb method) (r_methods r).

(** [Flask.dispatch_request]: find the rule of the request, bind its
    view arguments and call the view with them.  [NotFound] and
    [MethodNotAllowed] are raised when no rule fits. *)
Definition dispatch_request (app : list route) (rq : request) (w : W)
  : result response * W :=
  match filter (matches_path (req_path rq)) app with
  | [] => (Raised (Exception "NotFound" "404 Not Found"), w)
  | candidates =>
      match find (allows (req_method rq)) candidates with
      | None =>
          (Raised (Exception "MethodNotAllowed" "405 Method Not Allowed"), w)
      | Some r =>
          match match_rule (r_rule r) (req_path rq) with
          | Some view_args => call_view (r_view r) view_args w
          | None => (Raised (Exception "NotFound" "404 Not Found"), w)
          end
      end
  end.

(** The server answering the requests of a list one after the other. *)
Fixpoint serve (app : list route) (rqs : list request) (w : W)
  : list (result response) * W :=
  match rqs with
  | [] => ([], w)
  | rq :: rqs' =>
      let (r, w1) := dispatch_request app rq w in
      let (rs, w2) := serve app rqs' w1 in
      (r :: rs, w2)
  end.
(** Whether some route of the application serves the method on the path. *)
Definition routed (app : list route) (method path : string) : bool :=
  existsb (fun r => matches_path path r && allows method r) app.
End App.
Arguments view : clear implicits.
Arguments route : clear implicits.

(** The rule has no variable segment. *)
Definition static_rule (rule : string) : Prop :=
  Forall (fun seg => seg_var seg = None) (split_on "/" rule).

(** The segments of a path put together again. *)
Fixpoint join_on (c : ascii) (l : list string) : string :=
  match l with
  | [] => ""
  | x :: rest =>
      match rest with
      | [] => x
      | _ :: _ => x +++ String c (join_on c rest)
      end
  end.

End Flask.

(* ===================================================================== *)
(** ** The [random] module *)
(* ===================================================================== *)

(** The generator behind [random.randint], [random.choice] and
    [random.uniform] is the interpreter's, not the repository's: it is an
    interface with the two primitives these functions are built on and the
    ranges their documentation gives:
    [_randbelow(n)] is an integer of [0, n) and [random()] a float of
    [0.0, 1.0). *)
Class RandomSource : Type := {
  rng : Type;
  randbelow : Z -> rng -> Z * rng;
  random_float : rng -> Q * rng;
  randbelow_range : forall n g, 0 < n -> 0 <= fst (randbelow n g) < n;
  random_float_range :
    forall g, (0 <= fst (random_float g))%Q /\ (fst (random_float g) < 1)%Q
}.

Section Random.
Context {RS : RandomSource}.

(** [randint(a, b)] is [randrange(a, b + 1)], that is
    [a + _randbelow(b - a + 1)]; the scripts call it on constants with
    [a <= b], where it raises nothing. *)
Definition randint (a b : Z) (g : rng) : Z * rng :=
  let (r, g') := randbelow (b - a + 1) g in (a + r, g').

(** [choice(seq)] is [seq[_randbelow(len(seq))]], here on the non-empty
    sequence [x :: xs]. *)
Definition choice {A : Type} (x : A) (xs : list A) (g : rng) : A * rng :=
  let (i, g') := randbelow (Z.of_nat (List.length (x :: xs))) g in
  (nth (Z.to_nat i) (x :: xs) x, g').

(** [uniform(a, b)] is [a + (b - a) * random()]. *)
Definition uniform (a b : Z) (g : rng) : Q * rng :=
  let (r, g') := random_float g in
  ((inject_Z a + (inject_Z b - inject_Z a) * r)%Q, g').
End Random.

(** *** A sample generator

    A linear congruential generator that meets the interface; the concrete
    runs below use it. *)

Definition lcg_next (s : Z) : Z := (s * 1103515245 + 12345) mod 2147483648.

Definition lcg_randbelow (n : Z) (s : Z) : Z * Z :=
  let s' := lcg_next s in ((s' / 65536) mod n, s').

Definition lcg_random (s : Z) : Q * Z :=
  let s' := lcg_next s in ((s' mod 16777216) # 16777216, s').

Definition lcg : RandomSource.
Proof.
  refine {| rng := Z;
            randbelow := lcg_randbelow;
            random_float := lcg_random;
            randbelow_range := _;
            random_float_range := _ |}.
  - intros n g H. cbn [lcg_randbelow fst]. apply Z.mod_pos_bound. exact H.
  - intros g. cbn [lcg_random fst].
    pose proof (Z.mod_pos_bound (lcg_next g) 16777216 eq_refl) as H.
    unfold Qle, Qlt; cbn [Qnum Qden]. lia.
Defined.

(* ===================================================================== *)
(** ** State passing *)
(* ===================================================================== *)

(** A handler reads and updates the world it runs in. *)
Definition State (S A : Type) : Type := S -> A * S.

Definition ret {S A : Type} (a : A) : State S A := fun s => (a, s).

Definition bind {S A B : Type} (c : State S A) (k : A -> State S B)
  : State S B :=
  fun s => let (a, s') := c s in k a s'.

Notation "x <- c ;; k" := (bind c (fun x => k))
  (at level 61, c at next level, right associativity).
Notation "c ;;; k" := (bind c (fun _ => k))
  (at level 61, right associativity).

(** [acc = []; for x in xs: acc.append(body(x))] *)
Fixpoint for_append {S A B : Type} (xs : list A) (body : A -> State S B)
  (acc : list B) : State S (list B) :=
  match xs with
  | [] => ret acc
  | x :: xs' => v <- body x ;; for_append xs' body (acc ++ [v])
  end.

(* ===================================================================== *)
(** ** EnvSetup.py: the mock DCIM server *)
(* ===================================================================== *)

Module EnvSetup.

Section Server.
Context {RS : RandomSource}.

(** What the handlers of the server touch: the process-wide random
    generator, the wall clock (the reading of each successive
    [datetime.now()]) and the records sent to the module's logger. *)
Record world : Type := mkWorld {
  w_rng : rng;
  w_clock : nat -> datetime;
  w_log : list string
}.

Definition draw {A : Type} (f : rng -> A * rng) : State world A :=
  fun w =>
    let (a, g) := f (w_rng w) in
    (a, {| w_rng := g; w_clock := w_clock w; w_log := w_log w |}).

(** [datetime.now()] *)
Definition datetime_now : State world datetime :=
  fun w =>
    (w_clock w O,
     {| w_rng := w_rng w;
        w_clock := fun k => w_clock w (S k);
        w_log := w_log w |}).

(** [logger.info(msg)] *)
Definition logger_info (msg : string) : State world unit :=
  fun w =>
    (tt, {| w_rng := w_rng w; w_clock := w_clock w;
            w_log := w_log w ++ [msg] |}).

Definition len (l : list pyval) : Z := Z.of_nat (List.length l).

(** The dictionary appended for rack [i]. *)
Definition rack_record (i : Z) : State world pyval :=
  watts <- draw (randint 7500 8500) ;;
  ret (PDict [("id", PStr ("rack-" +++ fmt_0d 2 i));
              ("location", PStr ("Row-" +++ str_int ((i - 1) / 2 + 1)));
              ("power_consumption_watts", PInt watts);
              ("pdu_id", PStr ("pdu-" +++ fmt_0d 2 i));
              ("pdu_status", PStr "operational")]).

Definition get_rack_power : State world Flask.response :=
  racks <- for_append (py_range 1 4) rack_record [] ;;
  logger_info ("Mock DCIM: Serving power data for "
               +++ str_int (len racks) +++ " racks") ;;;
  ret (Flask.jsonify (PDict [("racks", PList racks)])).

Definition locations : list string := ["rack-01"; "rack-02"; "server-room"].
Definition types : list string := ["ambient"; "supply"; "return"].

(** The dictionary appended for item [(i, (loc, sensor_type))] of the
    enumeration. *)
Definition sensor_record (item : Z * (string * string))
  : State world pyval :=
  let '(i, (loc, sensor_type)) := item in
  t <- draw (uniform 20 30) ;;
  ret (PDict [("id", PStr ("temp-" +++ fmt_0d 2 i));
              ("location", PStr loc);
              ("type", PStr sensor_type);
              ("temperature_celsius", PFloat (round1 t))]).

Definition get_temperature : State world Flask.response :=
  sensors <- for_append (enumerate (zip locations types)) sensor_record [] ;;
  logger_info ("Mock DCIM: Serving temperature data for "
               +++ str_int (len sensors) +++ " sensors") ;;;
  ret (Flask.jsonify (PDict [("sensors", PList sensors)])).

(** The sequence [random.choice] draws the status from. *)
Definition status_first : string := "operational".
Definition status_rest : list string :=
  ["operational"; "operational"; "warning"].

(** The dictionary appended for unit [i]: the status is drawn before the
    load. *)
Definition unit_record (i : Z) : State world pyval :=
  status <- draw (choice status_first status_rest) ;;
  load <- draw (randint 60 85) ;;
  ret (PDict [("id", PStr ("crac-" +++ fmt_0d 2 i));
              ("location", PStr ("Zone-" +++ str_int i));
              ("status", PStr status);
              ("capacity_kw", PInt 50);
              ("current_load_percent", PInt load)]).

Definition get_cooling_status : State world Flask.response :=
  units <- for_append (py_range 1 4) unit_record [] ;;
  logger_info ("Mock DCIM: Serving cooling data for "
               +++ str_int (len units) +++ " units") ;;;
  ret (Flask.jsonify (PDict [("cooling_units", PList units)])).

Definition health_check : State world Flask.response :=
  now <- datetime_now ;;
  ret (Flask.jsonify (PDict [("status", PStr "healthy");
                             ("service", PStr "Mock DCIM Server");
                             ("timestamp", PStr (isoformat now))])).

(** A view that returns normally. *)
Definition returns (h : State world Flask.response)
  : world -> result Flask.response * world :=
  fun w => let (r, w') := h w in (Ok r, w').

Definition power_path : string := "/api/v2/racks/power".
Definition temperature_path : string := "/nlyte/api/v1/sensors/temperature".
Definition cooling_path : string := "/nlyte/api/v1/cooling/units".
Definition health_path : string := "/health".

(** [create_mock_dcim_server()]: the four routes, each registered for the
    default method [GET]. *)
Definition create_mock_dcim_server : list (Flask.route world) :=
  [ Flask.mkRoute power_path ["GET"]
      (Flask.View0 "get_rack_power" (returns get_rack_power));
    Flask.mkRoute temperature_path ["GET"]
      (Flask.View0 "get_temperature" (returns get_temperature));
    Flask.mkRoute cooling_path ["GET"]
      (Flask.View0 "get_cooling_status" (returns get_cooling_status));
    Flask.mkRoute health_path ["GET"]
      (Flask.View0 "health_check" (returns health_check)) ].

(** The answer of the server to one request. *)
Definition handle (rq : Flask.request) (w : world)
  : result Flask.response * world :=
  Flask.dispatch_request create_mock_dcim_server rq w.

(** The JSON body of an answer; [PNone] when a request raised. *)
Definition body_of (r : result Flask.response) : pyval :=
  match r with
  | Ok resp => Flask.json_body resp
  | Raised _ => PNone
  end.

(** The items of the list stored under [k] in a JSON body. *)
Definition items (k : string) (v : pyval) : list pyval :=
  match field k v with
  | Some (PList l) => l
  | _ => []
  end.

(** *** Notions the properties are stated with *)

(** The value a computation returns and the generator state it leaves are
    decided by the generator state it starts from. *)
Definition rng_determined {A : Type} (c : State world A) : Prop :=
  forall w1 w2, w_rng w1 = w_rng w2 ->
    fst (c w1) = fst (c w2) /\ w_rng (snd (c w1)) = w_rng (snd (c w2)).

(** The paths of the three telemetry handlers. *)
Definition telemetry_paths : list string :=
  [power_path; temperature_path; cooling_path].

(** The world the server is in once it has answered the requests [pre]. *)
Definition after (pre : list Flask.request) (w : world) : world :=
  snd (Flask.serve create_mock_dcim_server pre w).

Definition health_requests (n : nat) : list Flask.request :=
  repeat (Flask.GET health_path) n.

(** The [timestamp] string of an answer. *)
Definition timestamp_of (r : result Flask.response) : string :=
  match field "timestamp" (body_of r) with
  | Some (PStr s) => s
  | _ => ""
  end.

(** The answer of [health_check] when the clock reads [d]. *)
Definition health_answer (d : datetime) : result Flask.response :=
  Ok (Flask.jsonify (PDict [("status", PStr "healthy");
                            ("service", PStr "Mock DCIM Server");
                            ("timestamp", PStr (isoformat d))])).

(** The computation leaves the clock and the log as they are. *)
Definition frames {A : Type} (c : State world A) : Prop :=
  forall w, w_clock (snd (c w)) = w_clock w /\ w_log (snd (c w)) = w_log w.

(** The numbers [get_cooling_status] takes from the generator for [n]
    units, from the generator state [g] on and in the order it takes them:
    for each unit the index at which [random.choice] reads its sequence of
    four, then the offset [random.randint(60, 85)] adds to 60. *)
Fixpoint cooling_draws (n : nat) (g : rng) : list (Z * Z) :=
  match n with
  | O => []
  | S n' =>
      let (i, g1) := randbelow 4 g in
      let (r, g2) := randbelow 26 g1 in
      (i, r) :: cooling_draws n' g2
  end.

(** The status and the load of the unit whose draws are [d]. *)
Definition drawn_status (d : Z * Z) : string :=
  nth (Z.to_nat (fst d)) (status_first :: status_rest) status_first.

Definition drawn_load (d : Z * Z) : Z := 60 + snd d.

End Server.

(** *** The command line entry point *)

Inductive mode : Type := ModeTest | ModeMockDcim | ModeBenchmark | ModeInfo.

Record args : Type := mkArgs { a_mode : mode; a_port : Z }.

(** What [parser.parse_args()] does with a command line: it returns the
    arguments, or leaves through [SystemExit], with status 0 after printing
    the help and status 2 after reporting a usage error. *)
Inductive parse_outcome : Type :=
| Parsed (a : args)
| HelpExit
| UsageError.

(** The class of an exception: its name and the names of the classes it
    derives from, up to [Exception]. *)
Record exc_class : Type := mkClass {
  cls_name : string;
  cls_bases : list string
}.

(** How a step outside the script ends when it does not complete: the user
    interrupts it, or it raises an exception of a class under [Exception]. *)
Inductive fault : Type :=
| Interrupt
| Error (cls : exc_class) (msg : string).

Definition raise_fault (f : fault) : exn :=
  match f with
  | Interrupt => KeyboardInterrupt
  | Error cls msg => Exception (cls_name cls) msg
  end.

(** The steps of a run that leave the script, each with the fault it ends in,
    if any.  The messages printed on the way are left out: no step reads
    them. *)
Record env : Type := mkEnv {
  e_getcwd : option fault;    (* [os.getcwd()], [os.path.abspath(__file__)] *)
  e_packages : option fault;  (* [pkg_resources] and its working set *)
  e_imports : option fault;   (* [import requests], [yaml], [flask] *)
  e_files : option fault;     (* [makedirs], [open], [json.dump], [remove] *)
  e_socket : option fault;    (* [socket], [bind], [getsockname], [close] *)
  e_app_run : option exn;     (* [app.run(...)]: besides an interrupt and
                                 an exception, the development server
                                 leaves through [sys.exit(1)] when it
                                 cannot bind the port *)
  e_gputil : option fault     (* [import GPUtil], [GPUtil.getGPUs()] *)
}.

(** What an [except ImportError] clause catches: an exception whose class
    is [ImportError] or derives from it. *)
Definition is_import_error (cls : exc_class) : bool :=
  String.eqb (cls_name cls) "ImportError"
  || existsb (String.eqb "ImportError") (cls_bases cls).

Definition show_system_info (e : env) : result unit :=
  match e_getcwd e with
  | Some f => Raised (raise_fault f)
  | None =>
      match e_packages e with
      | Some Interrupt => Raised KeyboardInterrupt
      | Some (Error _ _) => Ok tt        (* [except Exception as e] *)
      | None => Ok tt
      end
  end.

Definition test_basic_functionality (e : env) : result bool :=
  match e_imports e with
  | Some Interrupt => Raised KeyboardInterrupt
  | Some (Error cls msg) =>
      if is_import_error cls then Ok false   (* [except ImportError as e] *)
      else Raised (Exception (cls_name cls) msg)
  | None =>
      match e_files e with
      | Some Interrupt => Raised KeyboardInterrupt
      | Some (Error _ _) => Ok false         (* [except Exception as e] *)
      | None =>
          match e_socket e with
          | Some Interrupt => Raised KeyboardInterrupt
          | Some (Error _ _) => Ok false     (* [except Exception as e] *)
          | None => Ok true
          end
      end
  end.

Definition run_mock_dcim_server (port : Z) (e : env) : result unit :=
  match e_app_run e with
  | Some KeyboardInterrupt => Ok tt      (* [except KeyboardInterrupt] *)
  | Some (Exception _ _) => Ok tt        (* [except Exception as e] *)
  | Some (SystemExit code) => Raised (SystemExit code)   (* caught by neither *)
  | None => Ok tt
  end.

Definition run_quick_benchmark (e : env) : result unit :=
  match e_gputil e with
  | Some Interrupt => Raised KeyboardInterrupt
  | Some (Error cls msg) =>
      if is_import_error cls then Ok tt      (* [except ImportError] *)
      else Raised (Exception (cls_name cls) msg)
  | None => Ok tt
  end.


Section Cli.
(** [argparse] is the interpreter's: [main] is given its verdict on the
    command line. *)
Variable parse_args : list string -> parse_outcome.

Definition main (argv : list string) (e : env) : result unit :=
  match parse_args argv with
  | HelpExit => Raised (SystemExit 0)
  | UsageError => Raised (SystemExit 2)
  | Parsed a =>
      match a_mode a with
      | ModeTest =>
          match show_system_info e with
          | Raised x => Raised x
          | Ok _ =>
              match test_basic_functionality e with
              | Raised x => Raised x
              | Ok success =>
                  if negb success then Raised (SystemExit 1)   (* [sys.exit(1)] *)
                  else Ok tt
              end
          end
      | ModeMockDcim => run_mock_dcim_server (a_port a) e
      | ModeBenchmark => run_quick_benchmark e
      | ModeInfo => show_system_info e
      end
  end.

(** The [if __name__ == '__main__'] block: the exit status of the process. *)
Definition script (argv : list string) (e : env) : Z :=
  match main argv e with
  | Ok _ => 0
  | Raised KeyboardInterrupt => 0        (* [sys.exit(0)] *)
  | Raised (SystemExit code) => code
  | Raised (Exception _ _) => 1          (* [sys.exit(1)] *)
  end.

(** The self-test ran and reported failure. *)
Definition selftest_failed (argv : list string) (e : env) : Prop :=
  exists a, parse_args argv = Parsed a /\ a_mode a = ModeTest /\
            show_system_info e = Ok tt /\
            test_basic_functionality e = Ok false.

(** An exception that no clause of the functions catches reaches the
    [except Exception] clause of the top level. *)
Definition exception_reaches_top (argv : list string) (e : env) : Prop :=
  exists cls msg, main argv e = Raised (Exception cls msg).


End Cli.

(** The parser of the script on the spellings of its own usage text:
    [--mode M], [--mode=M], [--port N], [--port=N], [-h] and [--help]. *)
Definition mode_of_string (s : string) : option mode :=
  if String.eqb s "test" then Some ModeTest
  else if String.eqb s "mock-dcim" then Some ModeMockDcim
  else if String.eqb s "benchmark" then Some ModeBenchmark
  else if String.eqb s "info" then Some ModeInfo
  else None.

Fixpoint nat_of_digits (s : string) (acc : Z) : option Z :=
  match s with
  | EmptyString => Some acc
  | String a s' =>
      let n := Z.of_nat (nat_of_ascii a) in
      if (48 <=? n) && (n <=? 57)
      then nat_of_digits s' (10 * acc + (n - 48))
      else None
  end.

(** [int(s)] on an optional sign and decimal digits. *)
Definition int_of_string (s : string) : option Z :=
  match s with
  | EmptyString => None
  | String a s' =>
      if Ascii.eqb a "-" then
        match s' with
        | EmptyString => None
        | _ => option_map Z.opp (nat_of_digits s' 0)
        end
      else if Ascii.eqb a "+" then
        match s' with
        | EmptyString => None
        | _ => nat_of_digits s' 0
        end
      else nat_of_digits s 0
  end.

(** [tok] as [flag=value]. *)
Definition flag_value (flag tok : string) : option string :=
  let p := flag +++ "=" in
  if String.prefix p tok
  then Some (String.substring (String.length p)
                              (String.length tok - String.length p) tok)
  else None.

Definition set_mode (v : string) (a : args) : option args :=
  option_map (fun m => {| a_mode := m; a_port := a_port a |})
             (mode_of_string v).

Definition set_port (v : string) (a : args) : option args :=
  option_map (fun n => {| a_mode := a_mode a; a_port := n |})
             (int_of_string v).

Definition continue_with (k : args -> parse_outcome) (a : option args)
  : parse_outcome :=
  match a with
  | Some a' => k a'
  | None => UsageError
  end.

Fixpoint parse_from (argv : list string) (a : args) : parse_outcome :=
  match argv with
  | [] => Parsed a
  | tok :: rest =>
      if String.eqb tok "-h" || String.eqb tok "--help" then HelpExit
      else if String.eqb tok "--mode" then
        match rest with
        | v :: rest' => continue_with (parse_from rest') (set_mode v a)
        | [] => UsageError
        end
      else if String.eqb tok "--port" then
        match rest with
        | v :: rest' => continue_with (parse_from rest') (set_port v a)
        | [] => UsageError
        end
      else
        match flag_value "--mode" tok, flag_value "--port" tok with
        | Some v, _ => continue_with (parse_from rest) (set_mode v a)
        | None, Some v => continue_with (parse_from rest) (set_port v a)
        | None, None => UsageError
        end
  end.

Definition default_args : args := {| a_mode := ModeTest; a_port := 8080 |}.

Definition parse_args (argv : list string) : parse_outcome :=
  parse_from argv default_args.

(** *** Sample runs, on the sample generator *)

(** A clock that advances by one second at each reading. *)
Definition ticking_clock (k : nat) : datetime :=
  mkDatetime 2024 11 3 1 0 (Z.of_nat k) 0.

Definition sample_world : @world lcg :=
  {| w_rng := (42%Z : @rng lcg); w_clock := ticking_clock; w_log := [] |}.

(** The local wall clock in the night daylight saving time ends: a
    reading of 01:59:59, and the next reading one hour earlier. *)
Definition dst_clock (k : nat) : datetime :=
  match k with
  | O => mkDatetime 2024 11 3 1 59 59 0
  | _ => mkDatetime 2024 11 3 1 0 0 0
  end.

Definition dst_world : @world lcg :=
  {| w_rng := (42%Z : @rng lcg); w_clock := dst_clock; w_log := [] |}.

(** A power request that asks for [count] racks in its query. *)
Definition power_request (count : Z) : Flask.request :=
  Flask.mkRequest "GET" power_path [("count", str_int count)].

(** The count a request asks for, when its query has one. *)
Definition requested_count (rq : Flask.request) : option Z :=
  match find (fun kv => String.eqb (fst kv) "count") (Flask.req_query rq) with
  | Some (_, v) => int_of_string v
  | None => None
  end.

(** Some exception classes, with the classes they derive from. *)
Definition ModuleNotFoundError : exc_class :=
  mkClass "ModuleNotFoundError" ["ImportError"; "Exception"].
Definition ZipImportError : exc_class :=
  mkClass "ZipImportError" ["ImportError"; "Exception"].
Definition ValueError : exc_class := mkClass "ValueError" ["Exception"].
Definition FileNotFoundError : exc_class :=
  mkClass "FileNotFoundError" ["OSError"; "Exception"].

(** A run in which every step outside the script completes. *)
Definition fine_env : env :=
  {| e_getcwd := None; e_packages := None; e_imports := None;
     e_files := None; e_socket := None; e_app_run := None;
     e_gputil := None |}.

(** *** The rest of the script *)

(** The paths the server routes. *)
Definition all_paths : list string :=
  [power_path; temperature_path; cooling_path; health_path].

(** The endpoints [run_mock_dcim_server] prints before it starts the
    server: the label and the URL of each line. *)
Definition advertised (port : Z) : list (string * string) :=
  [("📡 Power endpoint: ",
    "http://localhost:" +++ str_int port +++ "/api/v2/racks/power");
   ("🌡️  Temperature endpoint: ",
    "http://localhost:" +++ str_int port
    +++ "/nlyte/api/v1/sensors/temperature");
   ("❄️  Cooling endpoint: ",
    "http://localhost:" +++ str_int port +++ "/nlyte/api/v1/cooling/units");
   ("💓 Health check: ",
    "http://localhost:" +++ str_int port +++ "/health")].

(** The lines [run_mock_dcim_server] prints before it starts the server. *)
Definition server_banner (port : Z) : list string :=
  ("🚀 Starting Mock DCIM Server on port " +++ str_int port +++ "...")
  :: map (fun lu => fst lu +++ snd lu) (advertised port)
  ++ ["⏹️  Press Ctrl+C to stop"].

(** [sum(i * i for i in range(n))] *)
Definition sum_squares_below (n : Z) : Z :=
  fold_left Z.add (map (fun i => i * i) (py_range 0 n)) 0.

(** The [result] of the CPU task of [run_quick_benchmark]. *)
Definition benchmark_result : Z := sum_squares_below 100000.

(** A run in which the server cannot bind its port and leaves through
    [sys.exit(1)]. *)
Definition port_held_env : env :=
  {| e_getcwd := None; e_packages := None; e_imports := None;
     e_files := None; e_socket := None;
     e_app_run := Some (SystemExit 1);
     e_gputil := None |}.

(** A run in which the server fails with an exception. *)
Definition server_fails_env : env :=
  {| e_getcwd := None; e_packages := None; e_imports := None;
     e_files := None; e_socket := None;
     e_app_run := Some (Exception "RuntimeError" "server failed");
     e_gputil := None |}.

(** A run in which [GPUtil] is there and cannot be loaded from its
    archive. *)
Definition zipped_gputil_env : env :=
  {| e_getcwd := None; e_packages := None; e_imports := None;
     e_files := None; e_socket := None; e_app_run := None;
     e_gputil := Some (Error ZipImportError "can't decompress data") |}.

(** A run without [GPUtil]. *)
Definition no_gputil_env : env :=
  {| e_getcwd := None; e_packages := None; e_imports := None;
     e_files := None; e_socket := None; e_app_run := None;
     e_gputil := Some (Error ModuleNotFoundError
                             "No module named 'GPUtil'") |}.

(** A run in which the package check fails. *)
Definition no_pkg_resources_env : env :=
  {| e_getcwd := None;
     e_packages := Some (Error ModuleNotFoundError
                               "No module named 'pkg_resources'");
     e_imports := None; e_files := None; e_socket := None;
     e_app_run := None; e_gputil := None |}.

End EnvSetup.

(* ===================================================================== *)
(** ** ServerTest.py: the demonstration API *)
(* ===================================================================== *)

Module ServerTest.

Definition newline : string := String (ascii_of_nat 10) "".

(** A line written by [print]: its text, or a label followed by the value
    an f-string interpolates. *)
Inductive output : Type :=
| Line (s : string)
| LineOf (label : string) (v : pyval).

(** What [requests.get] returns: the status code, and what [.json()] makes
    of the body. *)
Record http_response : Type := mkHttpResponse {
  hr_status_code : Z;
  hr_json : result pyval
}.

(** What the handlers touch: the wall clock, the terminal, and the network -
    how each successive [requests.get] ends, and the URLs asked so far. *)
Record world : Type := mkWorld {
  w_clock : nat -> datetime;
  w_stdout : list output;
  w_net : nat -> result http_response;
  w_sent : list string
}.

(** A computation that may raise: the world it leaves is kept either way. *)
Definition Exc (A : Type) : Type := world -> result A * world.

Definition eret {A : Type} (a : A) : Exc A := fun w => (Ok a, w).

Definition ebind {A B : Type} (c : Exc A) (k : A -> Exc B) : Exc B :=
  fun w =>
    match c w with
    | (Ok a, w') => k a w'
    | (Raised e, w') => (Raised e, w')
    end.

Notation "x <-! c ;; k" := (ebind c (fun x => k))
  (at level 61, c at next level, right associativity).
Notation "c ;;! k" := (ebind c (fun _ => k))
  (at level 61, right associativity).

Definition lift_result {A : Type} (r : result A) : Exc A := fun w => (r, w).

Definition print (o : output) : Exc unit :=
  fun w =>
    (Ok tt, {| w_clock := w_clock w; w_stdout := w_stdout w ++ [o];
               w_net := w_net w; w_sent := w_sent w |}).

(** [datetime.now()] *)
Definition datetime_now : Exc datetime :=
  fun w =>
    (Ok (w_clock w O),
     {| w_clock := fun k => w_clock w (S k); w_stdout := w_stdout w;
        w_net := w_net w; w_sent := w_sent w |}).

(** [requests.get(url)] *)
Definition requests_get (url : string) : Exc http_response :=
  fun w =>
    (w_net w O,
     {| w_clock := w_clock w; w_stdout := w_stdout w;
        w_net := fun k => w_net w (S k); w_sent := w_sent w ++ [url] |}).

(** [v[k]] on a decoded JSON value. *)
Definition subscript (v : pyval) (k : string) : result pyval :=
  match v with
  | PDict d =>
      match dict_get k d with
      | Some x => Ok x
      | None => Raised (Exception "KeyError" ("'" +++ k +++ "'"))
      end
  | _ => Raised (Exception "TypeError" "indices must be integers")
  end.

(** [requests.exceptions.ConnectionError] and its subclasses. *)
Definition is_connection_error (cls : string) : bool :=
  String.eqb cls "ConnectionError" || String.eqb cls "ProxyError" ||
  String.eqb cls "SSLError" || String.eqb cls "ConnectTimeout".

Definition server_response : Exc Flask.response :=
  eret (Flask.jsonify (PDict [("message", PStr " server ping message !");
                              ("status", PStr "success")])).

Definition get_alert (name : string) : Exc Flask.response :=
  eret (Flask.jsonify (PDict [("message", PStr ("Alert, " +++ name +++ "!"));
                              ("status", PStr "success");
                              ("name", PStr name)])).

(** The dictionary [data] of [get_current_metrics]. *)
Definition metrics_data_at (now : datetime) : list (string * pyval) :=
  [("cpu_usage", PStr "45%");
   ("memory_usage", PStr "67%");
   ("disk_space", PStr "23GB free");
   ("uptime", PStr "5 days, 3 hours");
   ("timestamp", PStr (strftime_metrics now))].

Definition print_field (label key : string) (v : pyval) : Exc unit :=
  x <-! lift_result (subscript v key) ;;
  print (LineOf label x).

Definition get_current_metrics : Exc Flask.response :=
  print (Line "🚀 HTTP Request received at /api/metrics") ;;!
  print (Line "📡 Processing request during RUNTIME...") ;;!
  now <-! datetime_now ;;
  let data := PDict (metrics_data_at now) in
  print (Line "📊 RUNTIME METRICS DATA:") ;;!
  print_field "   CPU Usage: " "cpu_usage" data ;;!
  print_field "   Memory Usage: " "memory_usage" data ;;!
  print_field "   Disk Space: " "disk_space" data ;;!
  print_field "   Uptime: " "uptime" data ;;!
  print_field "   Timestamp: " "timestamp" data ;;!
  print (Line ("✅ Sending JSON response back to client" +++ newline)) ;;!
  eret (Flask.jsonify data).

Definition metrics_url : string := "http://localhost:9000/api/metrics".

(** The body of the [try] statement of [get_remote_metrics]. *)
Definition fetch_metrics : Exc Flask.response :=
  response <-! requests_get metrics_url ;;
  if hr_status_code response =? 200 then
    metrics_data <-! lift_result (hr_json response) ;;
    print (Line "📥 HTTP Response received:") ;;!
    print (LineOf "   Status Code: " (PInt (hr_status_code response))) ;;!
    print (Line "📊 FETCHED METRICS VIA HTTP:") ;;!
    print_field "   CPU Usage: " "cpu_usage" metrics_data ;;!
    print_field "   Memory Usage: " "memory_usage" metrics_data ;;!
    print_field "   Disk Space: " "disk_space" metrics_data ;;!
    print_field "   Uptime: " "uptime" metrics_data ;;!
    print_field "   Timestamp: " "timestamp" metrics_data ;;!
    eret (Flask.jsonify (PDict [("source", PStr "HTTP Request");
                                ("method", PStr "GET /api/metrics");
                                ("data", metrics_data);
                                ("status", PStr "success")]))
  else
    eret (Flask.jsonify (PDict [("error", PStr "Failed to fetch metrics");
                                ("status_code",
                                 PInt (hr_status_code response))])).

(** The two [except] clauses: [ConnectionError] first, then [Exception];
    what neither catches goes on. *)
Definition get_remote_metrics : Exc Flask.response :=
  print (Line "🌐 Making HTTP request during RUNTIME...") ;;!
  fun w =>
    match fetch_metrics w with
    | (Ok r, w') => (Ok r, w')
    | (Raised (Exception cls msg), w') =>
        if is_connection_error cls then
          (Ok (Flask.jsonify
                 (PDict [("error",
                          PStr "Connection failed - make sure server is running");
                         ("message",
                          PStr "Try accessing /api/metrics first")])), w')
        else (Ok (Flask.jsonify (PDict [("error", PStr msg)])), w')
    | (Raised e, w') => (Raised e, w')
    end.

Definition post_hello : Exc Flask.response :=
  eret (Flask.jsonify (PDict [("message", PStr "Hello from POST request!");
                              ("method", PStr "POST")])).

Definition alert_path : string := "/api/server_alert".
Definition metrics_path : string := "/api/metrics".
Definition remote_path : string := "/api/metrics/remote".

(** [setup_routes]: the five routes, in the order they are registered. *)
Definition setup_routes : list (Flask.route world) :=
  [ Flask.mkRoute "/api/response" ["GET"]
      (Flask.View0 "server_response" server_response);
    Flask.mkRoute alert_path ["GET"]
      (Flask.View1 "get_alert" "name" get_alert);
    Flask.mkRoute metrics_path ["GET"]
      (Flask.View0 "get_current_metrics" get_current_metrics);
    Flask.mkRoute remote_path ["GET"]
      (Flask.View0 "get_remote_metrics" get_remote_metrics);
    Flask.mkRoute "/api/hello" ["POST"]
      (Flask.View0 "post_hello" post_hello) ].

(** The answer of the server to one request. *)
Definition handle (rq : Flask.request) (w : world)
  : result Flask.response * world :=
  Flask.dispatch_request setup_routes rq w.

(** The success answer the docstring of [get_alert] describes, for some
    name. *)
Definition is_alert_json (v : pyval) : Prop :=
  exists name,
    v = PDict [("message", PStr ("Alert, " +++ name +++ "!"));
               ("status", PStr "success");
               ("name", PStr name)].

(** A value with the items under [k] taken out. *)
Definition without (k : string) (v : pyval) : pyval :=
  match v with
  | PDict d => PDict (dict_remove k d)
  | _ => v
  end.

(** The answer when the connection fails. *)
Definition connection_failed : Flask.response :=
  Flask.jsonify
    (PDict [("error", PStr "Connection failed - make sure server is running");
            ("message", PStr "Try accessing /api/metrics first")]).

(** A world in which nothing listens on port 9000. *)
Definition refused_world : world :=
  {| w_clock := fun k => mkDatetime 2024 11 3 1 0 (Z.of_nat k) 0;
     w_stdout := [];
     w_net := fun _ => Raised (Exception "ConnectionError"
                                 "Connection refused");
     w_sent := [] |}.

(** *** The rest of the script *)

(** The keys [get_remote_metrics] prints, in the order it reads them. *)
Definition printed_keys : list string :=
  ["cpu_usage"; "memory_usage"; "disk_space"; "uptime"; "timestamp"].

Definition is_missing (d : list (string * pyval)) (k : string) : bool :=
  match dict_get k d with
  | Some _ => false
  | None => true
  end.

(** The answer that wraps the metrics fetched over HTTP. *)
Definition fetched (metrics_data : pyval) : Flask.response :=
  Flask.jsonify (PDict [("source", PStr "HTTP Request");
                        ("method", PStr "GET /api/metrics");
                        ("data", metrics_data);
                        ("status", PStr "success")]).

(** The endpoints the start-up text of the script lists: method and
    path. *)
Definition listed_endpoints : list (string * string) :=
  [("GET", "/api/response");
   ("GET", "/api/alert");
   ("GET", "/api/metrics");
   ("GET", "/api/metrics/remote");
   ("POST", "/api/hello")].

(** The paths the application routes. *)
Definition all_paths : list string := map (@Flask.r_rule world) setup_routes.

(** The fields of a clock reading down to the second. *)
Definition to_second (d : datetime) : list Z :=
  [year d; month d; day d; hour d; minute d; second d].

(** A world whose next [requests.get] is answered by [resp]. *)
Definition world_answering (resp : result http_response) : world :=
  {| w_clock := fun k => mkDatetime 2024 11 3 1 0 (Z.of_nat k) 0;
     w_stdout := [];
     w_net := fun _ => resp;
     w_sent := [] |}.

(** The computation leaves the network as it is. *)
Definition offline {A : Type} (c : Exc A) : Prop :=
  forall w, w_sent (snd (c w)) = w_sent w /\ w_net (snd (c w)) = w_net w.

(** The computation returns or raises [r] in every world. *)
Definition answer_of {A : Type} (c : Exc A) (r : result A) : Prop :=
  forall w, fst (c w) = r.

(** What [fetch_metrics] does after [requests.get] has answered. *)
Definition after_get (response : http_response) : Exc Flask.response :=
  if hr_status_code response =? 200 then
    metrics_data <-! lift_result (hr_json response) ;;
    print (Line "📥 HTTP Response received:") ;;!
    print (LineOf "   Status Code: " (PInt (hr_status_code response))) ;;!
    print (Line "📊 FETCHED METRICS VIA HTTP:") ;;!
    print_field "   CPU Usage: " "cpu_usage" metrics_data ;;!
    print_field "   Memory Usage: " "memory_usage" metrics_data ;;!
    print_field "   Disk Space: " "disk_space" metrics_data ;;!
    print_field "   Uptime: " "uptime" metrics_data ;;!
    print_field "   Timestamp: " "timestamp" metrics_data ;;!
    eret (fetched metrics_data)
  else
    eret (Flask.jsonify (PDict [("error", PStr "Failed to fetch metrics");
                                ("status_code",
                                 PInt (hr_status_code response))])).

End ServerTest.

(* ===================================================================== *)
(** * Properties *)
(* ===================================================================== *)

(** ** Concrete evaluations *)

Example fmt_0d_pads : fmt_0d 2 1 = "01" /\ fmt_0d 2 10 = "10" /\
                      fmt_0d 2 123 = "123" /\ fmt_0d 3 (-5) = "-05".
Proof. repeat split. Qed.

Example str_int_values : str_int 0 = "0" /\ str_int 8080 = "8080" /\
                         str_int (-42) = "-42".
Proof. repeat split. Qed.

Example isoformat_whole_second :
  isoformat (mkDatetime 2024 11 3 1 59 59 0) = "2024-11-03T01:59:59".
Proof. reflexivity. Qed.

Example isoformat_with_fraction :
  isoformat (mkDatetime 2024 11 3 1 59 59 120) = "2024-11-03T01:59:59.000120".
Proof. reflexivity. Qed.

Example round1_values :
  round1 (2996 # 100) = 300 # 10 /\ round1 (2045 # 100) = 204 # 10 /\
  round1 (2055 # 100) = 206 # 10 /\ round1 (20 # 1) = 200 # 10.
Proof. repeat split. Qed.

Example match_rule_binds :
  Flask.match_rule "/user/<int:id>/x/<name>" "/user/5/x/bob"
  = Some [("id", "5"); ("name", "bob")].
Proof. reflexivity. Qed.

Example match_rule_static_path :
  Flask.match_rule "/api/server_alert" "/api/server_alert" = Some [] /\
  Flask.match_rule "/api/server_alert" "/api/server_alert/bob" = None.
Proof. split; reflexivity. Qed.

Example power_on_sample_world :
  map (field "power_consumption_watts")
      (EnvSetup.items "racks"
         (EnvSetup.body_of
            (fst (EnvSetup.handle (Flask.GET EnvSetup.power_path)
                                  EnvSetup.sample_world))))
  = [Some (PInt 7562); Some (PInt 7516); Some (PInt 7754)].
Proof. reflexivity. Qed.

Example temperature_on_sample_world :
  map (field "temperature_celsius")
      (EnvSetup.items "sensors"
         (EnvSetup.body_of
            (fst (EnvSetup.handle (Flask.GET EnvSetup.temperature_path)
                                  EnvSetup.sample_world))))
  = [Some (PFloat (254 # 10)); Some (PFloat (254 # 10));
     Some (PFloat (264 # 10))].
Proof. reflexivity. Qed.

Example cooling_log_on_sample_world :
  EnvSetup.w_log
    (snd (EnvSetup.handle (Flask.GET EnvSetup.cooling_path)
                          EnvSetup.sample_world))
  = ["Mock DCIM: Serving cooling data for 3 units"].
Proof. reflexivity. Qed.

Example unknown_path_not_found :
  fst (EnvSetup.handle (Flask.GET "/nowhere") EnvSetup.sample_world)
  = Raised (Exception "NotFound" "404 Not Found").
Proof. reflexivity. Qed.

Example post_not_allowed :
  fst (EnvSetup.handle (Flask.mkRequest "POST" EnvSetup.health_path [])
                       EnvSetup.sample_world)
  = Raised (Exception "MethodNotAllowed" "405 Method Not Allowed").
Proof. reflexivity. Qed.

Example parse_args_values :
  EnvSetup.parse_args [] = EnvSetup.Parsed EnvSetup.default_args /\
  EnvSetup.parse_args ["--mode"; "info"; "--port=9090"]
  = EnvSetup.Parsed (EnvSetup.mkArgs EnvSetup.ModeInfo 9090) /\
  EnvSetup.parse_args ["--port"; "eighty"] = EnvSetup.UsageError /\
  EnvSetup.parse_args ["--mode"; "bogus"] = EnvSetup.UsageError /\
  EnvSetup.parse_args ["--help"] = EnvSetup.HelpExit.
Proof. repeat split. Qed.

(** ** Loops that append *)

Section ForAppend.
Context {S A B : Type}.
Variable body : A -> State S B.

Lemma for_append_length (xs : list A) :
  forall (acc : list B) (s : S),
    List.length (fst (for_append xs body acc s))
    = (List.length acc + List.length xs)%nat.
Proof.
  induction xs as [|x xs IH]; intros acc s; cbn [for_append].
  - unfold ret; cbn. lia.
  - unfold bind. destruct (body x s) as [v s1].
    rewrite IH, length_app. cbn. lia.
Qed.

(** What holds of every value the body returns holds of every item. *)
Lemma for_append_Forall (P : B -> Prop) (xs : list A) :
  (forall x s, P (fst (body x s))) ->
  forall (acc : list B) (s : S),
    Forall P acc -> Forall P (fst (for_append xs body acc s)).
Proof.
  intros Hbody.
  induction xs as [|x xs IH]; intros acc s Hacc; cbn [for_append].
  - exact Hacc.
  - unfold bind. pose proof (Hbody x s) as Hx.
    destruct (body x s) as [v s1]. apply IH.
    apply Forall_app. split; [exact Hacc | constructor; [exact Hx | constructor]].
Qed.

(** A projection of the items that the loop variable alone decides. *)
Lemma for_append_map {C : Type} (f : B -> C) (g : A -> C) (xs : list A) :
  (forall x s, f (fst (body x s)) = g x) ->
  forall (acc : list B) (s : S),
    map f (fst (for_append xs body acc s)) = map f acc ++ map g xs.
Proof.
  intros Hbody.
  induction xs as [|x xs IH]; intros acc s; cbn [for_append].
  - cbn. now rewrite app_nil_r.
  - unfold bind. pose proof (Hbody x s) as Hx.
    destruct (body x s) as [v s1]. rewrite IH, map_app. cbn in *.
    rewrite Hx, <- app_assoc. reflexivity.
Qed.
End ForAppend.

(** ** The random functions *)

Section RandomFacts.
Context {RS : RandomSource}.

Lemma randint_range (a b : Z) (g : rng) :
  a <= b -> a <= fst (randint a b g) <= b.
Proof.
  intros Hab. unfold randint.
  pose proof (randbelow_range (b - a + 1) g) as H.
  destruct (randbelow (b - a + 1) g) as [r g']. cbn [fst] in *. lia.
Qed.

(** [choice] returns the item at an index of the sequence. *)
Lemma choice_index {A : Type} (x : A) (xs : list A) (g : rng) :
  exists i : nat,
    (i < List.length (x :: xs))%nat /\
    nth_error (x :: xs) i = Some (fst (choice x xs g)).
Proof.
  unfold choice.
  pose proof (randbelow_range (Z.of_nat (List.length (x :: xs))) g) as H.
  destruct (randbelow (Z.of_nat (List.length (x :: xs))) g) as [r g'].
  cbn [fst] in *.
  assert (Hr : 0 <= r < Z.of_nat (List.length (x :: xs))).
  { apply H. cbn [List.length]. lia. }
  exists (Z.to_nat r). split; [lia |].
  apply nth_error_nth'. lia.
Qed.

Lemma uniform_range (a b : Z) (g : rng) :
  a <= b ->
  (inject_Z a <= fst (uniform a b g))%Q /\ (fst (uniform a b g) <= inject_Z b)%Q.
Proof.
  intros Hab. unfold uniform.
  pose proof (random_float_range g) as [H0 H1].
  destruct (random_float g) as [r g']. cbn [fst] in *.
  assert (Hq : (inject_Z a <= inject_Z b)%Q) by (rewrite <- Zle_Qle; exact Hab).
  split; nra.
Qed.
End RandomFacts.

(** ** Formatting and the order of timestamps *)

Lemma string_length_append (a b : string) :
  String.length (a +++ b) = (String.length a + String.length b)%nat.
Proof. induction a as [|c a IH]; cbn; [reflexivity | now rewrite IH]. Qed.

Lemma ascii_compare_refl (c : ascii) : Ascii.compare c c = Eq.
Proof. unfold Ascii.compare. apply N.compare_refl. Qed.

Lemma compare_cons_same (c : ascii) (r1 r2 : string) :
  String.compare (String c r1) (String c r2) = String.compare r1 r2.
Proof. cbn [String.compare]. now rewrite ascii_compare_refl. Qed.

(** Strings that start with prefixes of one length compare by the prefixes
    first. *)
Lemma compare_app_same_length (a a' b b' : string) :
  String.length a = String.length a' ->
  String.compare (a +++ b) (a' +++ b')
  = match String.compare a a' with
    | Eq => String.compare b b'
    | c => c
    end.
Proof.
  revert a'. induction a as [|c a IH]; intros [|c' a'] Hlen;
    try discriminate; cbn [String.append String.compare].
  - reflexivity.
  - injection Hlen as Hlen.
    destruct (Ascii.compare c c'); [apply IH; exact Hlen | reflexivity ..].
Qed.

Lemma digits_length (w : nat) (n : Z) : String.length (digits w n) = w.
Proof.
  revert n. induction w as [|w IH]; intros n; cbn [digits].
  - reflexivity.
  - rewrite string_length_append, IH. cbn. lia.
Qed.

Lemma digit_char_compare (x y : Z) :
  0 <= x < 10 -> 0 <= y < 10 ->
  Ascii.compare (digit_char x) (digit_char y) = (x ?= y).
Proof.
  intros Hx Hy.
  assert (Ex : x = 0 \/ x = 1 \/ x = 2 \/ x = 3 \/ x = 4 \/ x = 5 \/ x = 6
               \/ x = 7 \/ x = 8 \/ x = 9) by lia.
  assert (Ey : y = 0 \/ y = 1 \/ y = 2 \/ y = 3 \/ y = 4 \/ y = 5 \/ y = 6
               \/ y = 7 \/ y = 8 \/ y = 9) by lia.
  repeat (destruct Ex as [-> | Ex]); try subst x;
    repeat (destruct Ey as [-> | Ey]); try subst y; reflexivity.
Qed.

(** Comparing two numbers is comparing their quotients by ten, then their
    last digits. *)
Lemma compare_div_mod_10 (x y : Z) :
  (x ?= y)
  = match x / 10 ?= y / 10 with
    | Eq => x mod 10 ?= y mod 10
    | c => c
    end.
Proof.
  pose proof (Z.div_mod x 10 ltac:(lia)) as Hx.
  pose proof (Z.div_mod y 10 ltac:(lia)) as Hy.
  pose proof (Z.mod_pos_bound x 10 ltac:(lia)) as Bx.
  pose proof (Z.mod_pos_bound y 10 ltac:(lia)) as By.
  destruct (Z.compare_spec (x / 10) (y / 10)) as [E | E | E].
  - destruct (Z.compare_spec (x mod 10) (y mod 10)) as [F | F | F].
    + apply Z.compare_eq_iff. lia.
    + apply Z.compare_lt_iff. lia.
    + apply Z.compare_gt_iff. lia.
  - apply Z.compare_lt_iff. lia.
  - apply Z.compare_gt_iff. lia.
Qed.

Lemma div_10_below (w : nat) (n : Z) :
  0 <= n < 10 ^ Z.of_nat (S w) -> 0 <= n / 10 < 10 ^ Z.of_nat w.
Proof.
  intros H. rewrite Nat2Z.inj_succ, Z.pow_succ_r in H by lia.
  split; [apply Z.div_pos; lia |].
  apply Z.div_lt_upper_bound; lia.
Qed.

(** Numbers written with one number of digits are ordered as their
    texts. *)
Lemma digits_compare (w : nat) :
  forall x y : Z,
    0 <= x < 10 ^ Z.of_nat w -> 0 <= y < 10 ^ Z.of_nat w ->
    String.compare (digits w x) (digits w y) = (x ?= y).
Proof.
  induction w as [|w IH]; intros x y Hx Hy.
  - cbn in Hx, Hy. assert (x = y) as -> by lia.
    cbn. symmetry. apply Z.compare_refl.
  - cbn [digits].
    rewrite compare_app_same_length by (now rewrite !digits_length).
    rewrite IH by (apply div_10_below; assumption).
    rewrite (compare_div_mod_10 x y).
    destruct (x / 10 ?= y / 10); try reflexivity.
    cbn [String.compare].
    rewrite digit_char_compare by (apply Z.mod_pos_bound; lia).
    destruct (x mod 10 ?= y mod 10); reflexivity.
Qed.

Lemma ndigits_aux_le (fuel : nat) :
  forall (w : nat) (n : Z),
    (1 <= w)%nat -> 0 <= n < 10 ^ Z.of_nat w ->
    (ndigits_aux fuel n <= w)%nat.
Proof.
  induction fuel as [|fuel IH]; intros w n Hw Hn; cbn [ndigits_aux].
  - exact Hw.
  - destruct (Z.ltb_spec n 10) as [Hlt | Hge]; [exact Hw |].
    destruct w as [|w]; [lia |].
    destruct w as [|w]; [cbn in Hn; lia |].
    apply le_n_S. apply IH; [lia |]. apply div_10_below. exact Hn.
Qed.

(** A field below [10 ^ w] is written with exactly [w] digits. *)
Lemma fmt_0d_digits (w : nat) (n : Z) :
  (1 <= w)%nat -> 0 <= n < 10 ^ Z.of_nat w -> fmt_0d w n = digits w n.
Proof.
  intros Hw Hn. unfold fmt_0d.
  destruct (Z.ltb_spec n 0) as [Hneg | _]; [lia |].
  rewrite Nat.max_l; [reflexivity |].
  apply ndigits_aux_le; assumption.
Qed.

Lemma compare_digits_app (w : nat) (x y : Z) (r1 r2 : string) :
  0 <= x < 10 ^ Z.of_nat w -> 0 <= y < 10 ^ Z.of_nat w ->
  String.compare (digits w x +++ r1) (digits w y +++ r2)
  = match x ?= y with
    | Eq => String.compare r1 r2
    | c => c
    end.
Proof.
  intros Hx Hy.
  rewrite compare_app_same_length by (now rewrite !digits_length).
  now rewrite digits_compare.
Qed.

Lemma iso_fraction_compare (u1 u2 : Z) :
  0 <= u1 <= 999999 -> 0 <= u2 <= 999999 ->
  String.compare (iso_fraction u1) (iso_fraction u2)
  = match u1 ?= u2 with
    | Eq => Eq
    | c => c
    end.
Proof.
  intros H1 H2. unfold iso_fraction.
  destruct (Z.eqb_spec u1 0) as [-> | N1], (Z.eqb_spec u2 0) as [-> | N2].
  - reflexivity.
  - cbn [String.append String.compare].
    assert (0 < u2) as H by lia. apply Z.compare_lt_iff in H.
    cbn in H |- *. now rewrite H.
  - cbn [String.append String.compare].
    assert (u1 > 0) as H by lia. unfold Z.gt in H. now rewrite H.
  - rewrite !fmt_0d_digits by (cbn; lia).
    cbn [String.append]. rewrite compare_cons_same.
    rewrite digits_compare by (cbn; lia).
    destruct (u1 ?= u2); reflexivity.
Qed.

(** The texts [isoformat] gives are ordered as the datetimes. *)
Lemma isoformat_compare (d1 d2 : datetime) :
  valid_datetime d1 -> valid_datetime d2 ->
  String.compare (isoformat d1) (isoformat d2) = datetime_compare d1 d2.
Proof.
  intros (Y1 & M1 & D1 & H1 & N1 & S1 & U1) (Y2 & M2 & D2 & H2 & N2 & S2 & U2).
  unfold isoformat.
  rewrite !fmt_0d_digits by (cbn; lia).
  unfold datetime_compare, datetime_fields. cbn [lex_compare].
  repeat (rewrite compare_digits_app by (cbn; lia);
          cbn [String.append]; rewrite ?compare_cons_same).
  rewrite iso_fraction_compare by assumption.
  reflexivity.
Qed.

Lemma isoformat_monotone (d1 d2 : datetime) :
  valid_datetime d1 -> valid_datetime d2 ->
  datetime_le d1 d2 -> string_le (isoformat d1) (isoformat d2).
Proof.
  intros V1 V2 H. unfold string_le. rewrite isoformat_compare; assumption.
Qed.

(** ** Serving a list of requests *)

Lemma serve_cons {W : Type} (app : list (Flask.route W))
  (rq : Flask.request) (rqs : list Flask.request) (w : W) :
  fst (Flask.serve app (rq :: rqs) w)
  = fst (Flask.dispatch_request app rq w)
    :: fst (Flask.serve app rqs (snd (Flask.dispatch_request app rq w))).
Proof.
  cbn [Flask.serve].
  destruct (Flask.dispatch_request app rq w) as [r w1].
  cbn [fst snd]. destruct (Flask.serve app rqs w1) as [rs w2]. reflexivity.
Qed.

(** ** The mock DCIM server *)

Module EnvSetupFacts.
Import EnvSetup.

Section Handlers.
Context {RS : RandomSource}.

(** *** Dispatch *)

Lemma handle_power (q : list (string * string)) (w : world) :
  handle (Flask.mkRequest "GET" power_path q) w = returns get_rack_power w.
Proof. reflexivity. Qed.

Lemma handle_temperature (q : list (string * string)) (w : world) :
  handle (Flask.mkRequest "GET" temperature_path q) w
  = returns get_temperature w.
Proof. reflexivity. Qed.

Lemma handle_cooling (q : list (string * string)) (w : world) :
  handle (Flask.mkRequest "GET" cooling_path q) w
  = returns get_cooling_status w.
Proof. reflexivity. Qed.

Lemma handle_health (q : list (string * string)) (w : world) :
  handle (Flask.mkRequest "GET" health_path q) w = returns health_check w.
Proof. reflexivity. Qed.

(** *** What each handler answers *)

Lemma get_rack_power_answer (w : world) :
  fst (get_rack_power w)
  = Flask.jsonify
      (PDict [("racks",
               PList (fst (for_append (py_range 1 4) rack_record [] w)))]).
Proof.
  unfold get_rack_power, bind.
  destruct (for_append (py_range 1 4) rack_record [] w) as [racks w1].
  reflexivity.
Qed.

Lemma get_temperature_answer (w : world) :
  fst (get_temperature w)
  = Flask.jsonify
      (PDict [("sensors",
               PList (fst (for_append (enumerate (zip locations types))
                                      sensor_record [] w)))]).
Proof.
  unfold get_temperature, bind.
  destruct (for_append (enumerate (zip locations types)) sensor_record [] w)
    as [sensors w1].
  reflexivity.
Qed.

Lemma get_cooling_status_answer (w : world) :
  fst (get_cooling_status w)
  = Flask.jsonify
      (PDict [("cooling_units",
               PList (fst (for_append (py_range 1 4) unit_record [] w)))]).
Proof.
  unfold get_cooling_status, bind.
  destruct (for_append (py_range 1 4) unit_record [] w) as [units w1].
  reflexivity.
Qed.

Lemma returns_fst (h : State world Flask.response) (w : world) :
  fst (returns h w) = Ok (fst (h w)).
Proof. unfold returns. destruct (h w); reflexivity. Qed.

Lemma items_single (k : string) (l : list pyval) :
  items k (PDict [(k, PList l)]) = l.
Proof. unfold items, field, dict_get. now rewrite String.eqb_refl. Qed.

Lemma field_single (k : string) (v : pyval) :
  field k (PDict [(k, v)]) = Some v.
Proof. unfold field, dict_get. now rewrite String.eqb_refl. Qed.

(** *** Rack power *)

Lemma rack_record_id (i : Z) (w : world) :
  field "id" (fst (rack_record i w)) = Some (PStr ("rack-" +++ fmt_0d 2 i)).
Proof.
  unfold rack_record, bind, draw.
  destruct (randint 7500 8500 (w_rng w)); reflexivity.
Qed.

Lemma rack_record_watts (i : Z) (w : world) :
  exists n, field "power_consumption_watts" (fst (rack_record i w))
            = Some (PInt n) /\ 7500 <= n <= 8500.
Proof.
  unfold rack_record, bind, draw.
  pose proof (randint_range 7500 8500 (w_rng w)) as H.
  destruct (randint 7500 8500 (w_rng w)) as [n g]. cbn [fst] in H.
  exists n. split; [reflexivity | lia].
Qed.

Lemma rack_record_pdu_status (i : Z) (w : world) :
  field "pdu_status" (fst (rack_record i w)) = Some (PStr "operational").
Proof.
  unfold rack_record, bind, draw.
  destruct (randint 7500 8500 (w_rng w)); reflexivity.
Qed.

(** C1 (as the code has it): the handler of the power endpoint takes no
    count.  Whatever the query of the request, it answers with exactly three
    rack records, numbered from 1 in order ([rack-01], [rack-02],
    [rack-03]), and the [power_consumption_watts] of each is an integer of
    [7500, 8500]. *)
Theorem power_readings_spec (q : list (string * string)) (w : world) :
  let racks :=
    items "racks"
      (body_of (fst (handle (Flask.mkRequest "GET" power_path q) w))) in
  List.length racks = 3%nat /\
  map (field "id") racks
  = [Some (PStr "rack-01"); Some (PStr "rack-02"); Some (PStr "rack-03")] /\
  Forall (fun r => exists n, field "power_consumption_watts" r = Some (PInt n)
                             /\ 7500 <= n <= 8500) racks.
Proof.
  rewrite handle_power, returns_fst, get_rack_power_answer.
  cbn [body_of Flask.json_body Flask.jsonify]. rewrite items_single.
  split; [| split].
  - rewrite for_append_length. reflexivity.
  - rewrite (for_append_map rack_record (field "id")
               (fun i => Some (PStr ("rack-" +++ fmt_0d 2 i)))).
    + reflexivity.
    + intros i s. apply rack_record_id.
  - apply for_append_Forall; [| constructor].
    intros i s. apply rack_record_watts.
Qed.

(** C4: every GET request to [/api/v2/racks/power] is answered with a JSON
    object whose [racks] field is a list of length 3, and the [pdu_status]
    of every element is the string [operational]. *)
Theorem power_endpoint_pdu_status (q : list (string * string)) (w : world) :
  exists resp racks,
    fst (handle (Flask.mkRequest "GET" power_path q) w) = Ok resp /\
    field "racks" (Flask.json_body resp) = Some (PList racks) /\
    List.length racks = 3%nat /\
    Forall (fun r => field "pdu_status" r = Some (PStr "operational")) racks.
Proof.
  rewrite handle_power, returns_fst, get_rack_power_answer.
  eexists. eexists. split; [reflexivity |].
  split; [apply field_single |]. split.
  - rewrite for_append_length. reflexivity.
  - apply for_append_Forall; [| constructor].
    intros i s. apply rack_record_pdu_status.
Qed.

(** *** Cooling units *)

Lemma status_choice_cases (i : nat) (s : string) :
  nth_error (status_first :: status_rest) i = Some s ->
  s = "operational" \/ s = "warning".
Proof.
  unfold status_first, status_rest.
  do 4 (destruct i as [|i]; [cbn; intros [= <-]; auto |]).
  destruct i; discriminate.
Qed.

Lemma unit_record_fields (i : Z) (w : world) :
  (exists n, field "current_load_percent" (fst (unit_record i w))
             = Some (PInt n) /\ 60 <= n <= 85) /\
  field "capacity_kw" (fst (unit_record i w)) = Some (PInt 50) /\
  (exists (k : nat) (s : string),
      nth_error (status_first :: status_rest) k = Some s /\
      field "status" (fst (unit_record i w)) = Some (PStr s)).
Proof.
  unfold unit_record, bind, draw.
  destruct (choice_index status_first status_rest (w_rng w)) as [k [_ Hk]].
  destruct (choice status_first status_rest (w_rng w)) as [st g1].
  cbn [fst w_rng] in *.
  pose proof (randint_range 60 85 g1) as Hn.
  destruct (randint 60 85 g1) as [n g2]. cbn [fst] in Hn.
  split; [| split].
  - exists n. split; [reflexivity | lia].
  - reflexivity.
  - exists k, st. split; [exact Hk | reflexivity].
Qed.

(** What a unit record takes from the generator, and what it makes of
    it. *)
Lemma unit_record_draws (i : Z) (w : world) :
  field "status" (fst (unit_record i w))
  = Some (PStr (drawn_status (fst (randbelow 4 (w_rng w)),
                              fst (randbelow 26 (snd (randbelow 4 (w_rng w))))))) /\
  field "current_load_percent" (fst (unit_record i w))
  = Some (PInt (drawn_load (fst (randbelow 4 (w_rng w)),
                            fst (randbelow 26 (snd (randbelow 4 (w_rng w))))))) /\
  w_rng (snd (unit_record i w))
  = snd (randbelow 26 (snd (randbelow 4 (w_rng w)))).
Proof.
  unfold unit_record, bind, draw, choice, randint, drawn_status, drawn_load.
  change (Z.of_nat (List.length (status_first :: status_rest))) with 4.
  change (85 - 60 + 1) with 26.
  destruct (randbelow 4 (w_rng w)) as [ix g1]. cbn [fst snd w_rng].
  destruct (randbelow 26 g1) as [r g2]. cbn [fst snd w_rng].
  repeat split.
Qed.

Lemma cooling_units_draws (xs : list Z) :
  forall (acc : list pyval) (w : world),
    map (fun u => (field "status" u, field "current_load_percent" u))
        (fst (for_append xs unit_record acc w))
    = map (fun u => (field "status" u, field "current_load_percent" u)) acc
      ++ map (fun d => (Some (PStr (drawn_status d)),
                        Some (PInt (drawn_load d))))
             (cooling_draws (List.length xs) (w_rng w)).
Proof.
  induction xs as [|x xs IH]; intros acc w; cbn [for_append List.length].
  - cbn. now rewrite app_nil_r.
  - unfold bind.
    destruct (unit_record_draws x w) as (Hs & Hl & Hg).
    destruct (unit_record x w) as [v w1]. cbn [fst snd] in *.
    rewrite IH, map_app. cbn [map cooling_draws].
    rewrite Hs, Hl, Hg, <- app_assoc.
    destruct (randbelow 4 (w_rng w)) as [ix g1]. cbn [fst snd].
    destruct (randbelow 26 g1) as [r g2]. reflexivity.
Qed.

Lemma cooling_draws_range (n : nat) :
  forall g, Forall (fun d => 0 <= fst d < 4 /\ 0 <= snd d < 26)
                   (cooling_draws n g).
Proof.
  induction n as [|n IH]; intros g; cbn [cooling_draws]; [constructor |].
  pose proof (randbelow_range 4 g) as H1.
  destruct (randbelow 4 g) as [ix g1].
  pose proof (randbelow_range 26 g1) as H2.
  destruct (randbelow 26 g1) as [r g2]. cbn [fst] in *.
  constructor; [cbn [fst snd]; lia | apply IH].
Qed.

Lemma cooling_draws_length (n : nat) :
  forall g, List.length (cooling_draws n g) = n.
Proof.
  induction n as [|n IH]; intros g; cbn [cooling_draws]; [reflexivity |].
  destruct (randbelow 4 g) as [ix g1]. destruct (randbelow 26 g1) as [r g2].
  cbn [List.length]. now rewrite IH.
Qed.

(** Of the four indexes [random.choice] can read, three give
    [operational] and one gives [warning]. *)
Lemma drawn_status_cases (i r : Z) :
  0 <= i < 4 ->
  (drawn_status (i, r) = "operational" <-> i < 3) /\
  (drawn_status (i, r) = "warning" <-> i = 3).
Proof.
  intros Hi. unfold drawn_status. cbn [fst].
  assert (H : i = 0 \/ i = 1 \/ i = 2 \/ i = 3) by lia.
  destruct H as [-> | [-> | [-> | ->]]]; cbn; split; split;
    first [reflexivity | lia | discriminate].
Qed.

(** C3: the cooling endpoint returns three cooling-unit records; every
    record has an integer [current_load_percent] of [60, 85], [capacity_kw]
    50, and a [status] that is [operational] or [warning].  The status of
    each unit is the item of the four-element sequence [operational,
    operational, operational, warning] at the index the generator draws
    for it below 4, and its load is 60 plus the number the generator draws
    next below 26: the units take their draws from the generator of the
    process one after the other.  Three of the four indexes give
    [operational] and one gives [warning], which under the uniform draw of
    [random.choice] is 75% to 25%. *)
Theorem cooling_readings_spec (q : list (string * string)) (w : world) :
  let units :=
    items "cooling_units"
      (body_of (fst (handle (Flask.mkRequest "GET" cooling_path q) w))) in
  let draws := cooling_draws 3 (w_rng w) in
  Forall (fun u =>
            (exists n, field "current_load_percent" u = Some (PInt n)
                       /\ 60 <= n <= 85) /\
            field "capacity_kw" u = Some (PInt 50) /\
            (exists (k : nat) (s : string),
                nth_error (status_first :: status_rest) k = Some s /\
                field "status" u = Some (PStr s) /\
                (s = "operational" \/ s = "warning"))) units /\
  List.length (status_first :: status_rest) = 4%nat /\
  count_occ string_dec (status_first :: status_rest) "operational" = 3%nat /\
  count_occ string_dec (status_first :: status_rest) "warning" = 1%nat /\
  List.length units = 3%nat /\
  List.length draws = 3%nat /\
  map (fun u => (field "status" u, field "current_load_percent" u)) units
  = map (fun d => (Some (PStr (drawn_status d)), Some (PInt (drawn_load d))))
        draws /\
  Forall (fun d => 0 <= fst d < 4 /\ 0 <= snd d < 26) draws /\
  (forall i r, 0 <= i < 4 ->
               (drawn_status (i, r) = "operational" <-> i < 3) /\
               (drawn_status (i, r) = "warning" <-> i = 3)).
Proof.
  rewrite handle_cooling, returns_fst, get_cooling_status_answer.
  cbn [body_of Flask.json_body Flask.jsonify]. rewrite items_single.
  cbv zeta.
  split; [| split; [reflexivity | split; [reflexivity | split; [reflexivity |]]]].
  - apply for_append_Forall; [| constructor].
    intros i s.
    destruct (unit_record_fields i s) as [Hload [Hcap [k [st [Hk Hst]]]]].
    split; [exact Hload | split; [exact Hcap |]].
    exists k, st. split; [exact Hk | split; [exact Hst |]].
    apply (status_choice_cases k). exact Hk.
  - split; [| split; [| split; [| split]]].
    + rewrite for_append_length. reflexivity.
    + apply cooling_draws_length.
    + rewrite cooling_units_draws. reflexivity.
    + apply cooling_draws_range.
    + apply drawn_status_cases.
Qed.

(** *** Temperature *)

(** Rounding to an integer stays between integer bounds. *)
Lemma round_half_even_range (a b : Z) (y : Q) :
  (inject_Z a <= y)%Q -> (y <= inject_Z b)%Q ->
  a <= round_half_even y <= b.
Proof.
  intros Ha Hb. unfold round_half_even.
  pose proof (Qfloor_resp_le _ _ Ha) as Hfa. rewrite Qfloor_Z in Hfa.
  pose proof (Qfloor_resp_le _ _ Hb) as Hfb. rewrite Qfloor_Z in Hfb.
  pose proof (Qfloor_le y) as Hfl.
  remember (Qfloor y) as f eqn:Hf. clear Hf.
  assert (Hup : (y - inject_Z f ?= 1 # 2)%Q <> Lt -> f + 1 <= b).
  { intros Hc. destruct (Z.eq_dec f b) as [-> | Hne]; [| lia].
    exfalso. apply Hc. apply (proj1 (Qlt_alt _ _)). lra. }
  cbv zeta.
  destruct (y - inject_Z f ?= 1 # 2)%Q eqn:E.
  - destruct (Z.even f); split; try lia. apply Hup. discriminate.
  - lia.
  - split; [lia |]. apply Hup. discriminate.
Qed.

Lemma round1_tenths (x : Q) :
  (20 <= x)%Q -> (x <= 30)%Q ->
  exists k : Z, round1 x = k # 10 /\ 200 <= k <= 300.
Proof.
  intros H20 H30. exists (round_half_even (x * inject_Z 10)).
  split; [reflexivity |].
  apply round_half_even_range.
  - change (inject_Z 200) with (200 # 1). change (inject_Z 10) with (10 # 1).
    lra.
  - change (inject_Z 300) with (300 # 1). change (inject_Z 10) with (10 # 1).
    lra.
Qed.

Lemma sensor_record_pair (item : Z * (string * string)) (w : world) :
  (field "location" (fst (sensor_record item w)),
   field "type" (fst (sensor_record item w)))
  = (Some (PStr (fst (snd item))), Some (PStr (snd (snd item)))).
Proof.
  destruct item as [i [loc ty]]. unfold sensor_record, bind, draw.
  destruct (uniform 20 30 (w_rng w)); reflexivity.
Qed.

Lemma sensor_record_temperature (item : Z * (string * string)) (w : world) :
  exists k : Z,
    field "temperature_celsius" (fst (sensor_record item w))
    = Some (PFloat (k # 10)) /\ 200 <= k <= 300.
Proof.
  destruct item as [i [loc ty]]. unfold sensor_record, bind, draw.
  pose proof (uniform_range 20 30 (w_rng w)) as [Hlo Hhi]; [lia |].
  destruct (uniform 20 30 (w_rng w)) as [t g]. cbn [fst] in Hlo, Hhi.
  destruct (round1_tenths t Hlo Hhi) as [k [Hk Hr]].
  exists k. split; [| exact Hr]. cbn. rewrite Hk. reflexivity.
Qed.

(** C2: every invocation of the temperature generator returns exactly 3
    records; their (location, type) pairs are the positional pairs of
    [rack-01, rack-02, server-room] and [ambient, supply, return], pairwise
    distinct; each [temperature_celsius] is a number of tenths [k / 10] with
    [20.0 <= k / 10 <= 30.0], so it has at most one decimal digit. *)
Theorem temperature_readings_spec (w : world) :
  let sensors :=
    items "sensors" (Flask.json_body (fst (get_temperature w))) in
  let pair_of := fun s => (field "location" s, field "type" s) in
  List.length sensors = 3%nat /\
  map pair_of sensors
  = [(Some (PStr "rack-01"), Some (PStr "ambient"));
     (Some (PStr "rack-02"), Some (PStr "supply"));
     (Some (PStr "server-room"), Some (PStr "return"))] /\
  NoDup (map pair_of sensors) /\
  Forall (fun s => exists k : Z,
              field "temperature_celsius" s = Some (PFloat (k # 10)) /\
              (20 <= k # 10)%Q /\ (k # 10 <= 30)%Q) sensors.
Proof.
  rewrite get_temperature_answer.
  cbn [Flask.json_body Flask.jsonify]. rewrite items_single. cbv zeta.
  assert (Hpairs :
    map (fun s => (field "location" s, field "type" s))
        (fst (for_append (enumerate (zip locations types)) sensor_record [] w))
    = [(Some (PStr "rack-01"), Some (PStr "ambient"));
       (Some (PStr "rack-02"), Some (PStr "supply"));
       (Some (PStr "server-room"), Some (PStr "return"))]).
  { rewrite (for_append_map sensor_record
               (fun s => (field "location" s, field "type" s))
               (fun item => (Some (PStr (fst (snd item))),
                             Some (PStr (snd (snd item)))))).
    - reflexivity.
    - intros item s. apply sensor_record_pair. }
  split; [| split; [| split]].
  - rewrite for_append_length. reflexivity.
  - exact Hpairs.
  - rewrite Hpairs.
    repeat constructor; cbn; intuition discriminate.
  - apply for_append_Forall; [| constructor].
    intros item s.
    destruct (sensor_record_temperature item s) as [k [Hk Hr]].
    exists k. split; [exact Hk |].
    unfold Qle; cbn [Qnum Qden]. lia.
Qed.

(** *** Handlers that read the generator only *)

Lemma rng_determined_ret {A : Type} (a : A) : rng_determined (ret a).
Proof. intros w1 w2 H. split; [reflexivity | exact H]. Qed.

Lemma rng_determined_bind {A B : Type}
  (c : State world A) (k : A -> State world B) :
  rng_determined c -> (forall a, rng_determined (k a)) ->
  rng_determined (bind c k).
Proof.
  intros Hc Hk w1 w2 H. unfold bind.
  destruct (Hc w1 w2 H) as [Hv Hg].
  destruct (c w1) as [a1 u1], (c w2) as [a2 u2]. cbn [fst snd] in *.
  subst a2. apply Hk. exact Hg.
Qed.

Lemma rng_determined_draw {A : Type} (f : rng -> A * rng) :
  rng_determined (draw f).
Proof.
  intros w1 w2 H. unfold draw. rewrite H.
  destruct (f (w_rng w2)); split; reflexivity.
Qed.

Lemma rng_determined_logger_info (msg : string) :
  rng_determined (logger_info msg).
Proof. intros w1 w2 H. split; [reflexivity | exact H]. Qed.

Lemma rng_determined_for_append {A B : Type}
  (body : A -> State world B) (xs : list A) :
  (forall x, rng_determined (body x)) ->
  forall acc, rng_determined (for_append xs body acc).
Proof.
  intros Hbody. induction xs as [|x xs IH]; intros acc; cbn [for_append].
  - apply rng_determined_ret.
  - apply rng_determined_bind; [apply Hbody | intros v; apply IH].
Qed.

Create HintDb rngdet.
#[local] Hint Resolve rng_determined_ret rng_determined_draw
  rng_determined_logger_info : rngdet.
#[local] Hint Extern 2 (rng_determined (bind _ _)) =>
  apply rng_determined_bind; [| intros ?] : rngdet.
#[local] Hint Extern 2 (rng_determined (for_append _ _ _)) =>
  apply rng_determined_for_append; intros ? : rngdet.

Lemma rng_determined_rack_record (i : Z) : rng_determined (rack_record i).
Proof. unfold rack_record. auto with rngdet. Qed.

Lemma rng_determined_sensor_record (item : Z * (string * string)) :
  rng_determined (sensor_record item).
Proof.
  destruct item as [i [loc ty]]. unfold sensor_record. auto with rngdet.
Qed.

Lemma rng_determined_unit_record (i : Z) : rng_determined (unit_record i).
Proof. unfold unit_record. auto 6 with rngdet. Qed.

#[local] Hint Resolve rng_determined_rack_record
  rng_determined_sensor_record rng_determined_unit_record : rngdet.

Lemma rng_determined_get_rack_power : rng_determined get_rack_power.
Proof. unfold get_rack_power. auto 6 with rngdet. Qed.

Lemma rng_determined_get_temperature : rng_determined get_temperature.
Proof. unfold get_temperature. auto 6 with rngdet. Qed.

Lemma rng_determined_get_cooling_status : rng_determined get_cooling_status.
Proof. unfold get_cooling_status. auto 6 with rngdet. Qed.

Lemma rng_determined_returns (h : State world Flask.response) :
  rng_determined h ->
  forall w1 w2, w_rng w1 = w_rng w2 ->
    fst (returns h w1) = fst (returns h w2) /\
    w_rng (snd (returns h w1)) = w_rng (snd (returns h w2)).
Proof.
  intros Hh w1 w2 H. unfold returns.
  destruct (Hh w1 w2 H) as [Hv Hg].
  destruct (h w1), (h w2). cbn [fst snd] in *. now subst.
Qed.

(** C9: the telemetry handlers (power, temperature, cooling) read no
    program state but the random generator.  Whatever requests the server
    answered before, from whatever world, two invocations of a telemetry
    handler that start from the same generator state return the same
    answer and leave the same generator state: nothing else an earlier
    invocation wrote is read. *)
Theorem telemetry_handlers_stateless
  (p : string) (pre1 pre2 : list Flask.request) (w1 w2 : world) :
  In p telemetry_paths ->
  w_rng (after pre1 w1) = w_rng (after pre2 w2) ->
  fst (handle (Flask.GET p) (after pre1 w1))
  = fst (handle (Flask.GET p) (after pre2 w2)) /\
  w_rng (snd (handle (Flask.GET p) (after pre1 w1)))
  = w_rng (snd (handle (Flask.GET p) (after pre2 w2))).
Proof.
  intros Hp Hrng. unfold Flask.GET.
  destruct Hp as [<- | [<- | [<- | []]]].
  - rewrite !handle_power.
    apply rng_determined_returns;
      [apply rng_determined_get_rack_power | exact Hrng].
  - rewrite !handle_temperature.
    apply rng_determined_returns;
      [apply rng_determined_get_temperature | exact Hrng].
  - rewrite !handle_cooling.
    apply rng_determined_returns;
      [apply rng_determined_get_cooling_status | exact Hrng].
Qed.

(** *** Health *)

(** Repeated health requests read the successive clock readings. *)
Lemma serve_health (n : nat) :
  forall w : world,
    fst (Flask.serve create_mock_dcim_server (health_requests n) w)
    = map (fun k => health_answer (w_clock w k)) (seq 0 n).
Proof.
  induction n as [|n IH]; intros w.
  - reflexivity.
  - unfold health_requests. cbn [repeat]. fold (health_requests n).
    rewrite serve_cons.
    change (Flask.dispatch_request create_mock_dcim_server
              (Flask.GET health_path) w)
      with (health_answer (w_clock w O),
            {| w_rng := w_rng w;
               w_clock := fun k => w_clock w (S k);
               w_log := w_log w |}).
    cbn [fst snd]. rewrite IH. cbn [w_clock].
    cbn [seq map]. f_equal. rewrite <- seq_shift, map_map. reflexivity.
Qed.

Lemma nth_timestamp (clock : nat -> datetime) (n k : nat) :
  (k < n)%nat ->
  nth k (map timestamp_of (map (fun i => health_answer (clock i)) (seq 0 n))) ""
  = isoformat (clock k).
Proof.
  intros Hk. rewrite map_map.
  rewrite (nth_indep _ "" (timestamp_of (health_answer (clock O))))
    by (now rewrite length_map, length_seq).
  rewrite (map_nth (fun i => timestamp_of (health_answer (clock i)))
                   (seq 0 n) O k).
  rewrite seq_nth by exact Hk. reflexivity.
Qed.

(** C5 (as the code has it): every answer to a sequence of repeated GET
    requests to [/health] has status [healthy], and its timestamp is the ISO
    text of the wall clock reading taken for it, whatever the clock does.
    The order of two timestamps is the order of the two readings: the
    timestamps are non-decreasing whenever the successive readings of the
    wall clock are, and only then; the handler adds no ordering of its
    own. *)
Theorem health_check_spec (n : nat) (w : world) :
  let answers :=
    fst (Flask.serve create_mock_dcim_server (health_requests n) w) in
  List.length answers = n /\
  Forall (fun r => field "status" (body_of r) = Some (PStr "healthy"))
         answers /\
  (forall k, (k < n)%nat ->
             nth k (map timestamp_of answers) "" = isoformat (w_clock w k)) /\
  (forall i j, (i < n)%nat -> (j < n)%nat ->
               valid_datetime (w_clock w i) -> valid_datetime (w_clock w j) ->
               (string_le (nth i (map timestamp_of answers) "")
                          (nth j (map timestamp_of answers) "") <->
                datetime_le (w_clock w i) (w_clock w j))) /\
  ((forall k, (k < n)%nat -> valid_datetime (w_clock w k)) ->
   (forall i j, (i <= j < n)%nat ->
                datetime_le (w_clock w i) (w_clock w j)) ->
   forall i j, (i <= j < n)%nat ->
               string_le (nth i (map timestamp_of answers) "")
                         (nth j (map timestamp_of answers) "")).
Proof.
  rewrite serve_health. cbv zeta.
  split; [| split; [| split; [| split]]].
  - now rewrite length_map, length_seq.
  - apply Forall_map, Forall_forall. intros k _. reflexivity.
  - intros k Hk. apply nth_timestamp. exact Hk.
  - intros i j Hi Hj Vi Vj. rewrite !nth_timestamp by assumption.
    unfold string_le, datetime_le.
    rewrite isoformat_compare by assumption. reflexivity.
  - intros Hvalid Hmono i j Hij. rewrite !nth_timestamp by lia.
    apply isoformat_monotone; [apply Hvalid; lia | apply Hvalid; lia |].
    apply Hmono. exact Hij.
Qed.

End Handlers.

(** *** Concrete runs, on the sample generator *)

(** C1 fails as stated: a request that asks for 5 racks is answered with
    3. *)
Lemma power_count_not_honoured :
  requested_count (power_request 5) = Some 5 /\
  len (items "racks"
         (body_of (fst (handle (power_request 5) sample_world)))) = 3.
Proof. split; reflexivity. Qed.

(** C5 fails as stated: of two successive health requests across the end
    of daylight saving time, the second timestamp is below the first. *)
Lemma health_timestamps_decrease :
  map timestamp_of
      (fst (Flask.serve create_mock_dcim_server (health_requests 2) dst_world))
  = ["2024-11-03T01:59:59"; "2024-11-03T01:00:00"] /\
  ~ string_le "2024-11-03T01:59:59" "2024-11-03T01:00:00".
Proof.
  split; [reflexivity |]. unfold string_le. intros H. apply H. reflexivity.
Qed.

(** C5 on three health requests under a clock that ticks. *)
Lemma health_check_spec_witness :
  let answers :=
    fst (Flask.serve create_mock_dcim_server (health_requests 3)
                     sample_world) in
  List.length answers = 3%nat /\
  Forall (fun r => field "status" (body_of r) = Some (PStr "healthy"))
         answers /\
  (forall k, (k < 3)%nat ->
             nth k (map timestamp_of answers) ""
             = isoformat (w_clock sample_world k)) /\
  (forall i j, (i <= j < 3)%nat ->
               string_le (nth i (map timestamp_of answers) "")
                         (nth j (map timestamp_of answers) "")).
Proof.
  destruct (health_check_spec 3 sample_world) as (Hl & Hs & Ht & _ & Hm).
  cbv zeta. split; [exact Hl | split; [exact Hs | split; [exact Ht |]]].
  apply Hm.
  - intros k Hk. do 3 (destruct k as [|k]; [cbv; intuition discriminate |]).
    lia.
  - intros i j Hij.
    do 3 (destruct i as [|i];
          [do 3 (destruct j as [|j]; [try lia; cbv; discriminate |]); lia |]).
    lia.
Defined.

(** C9 on a power request after no request and after two others, from
    worlds that differ in their clocks. *)
Lemma telemetry_handlers_stateless_witness :
  fst (handle (Flask.GET power_path) (after [] sample_world))
  = fst (handle (Flask.GET power_path)
                (after [Flask.GET health_path; Flask.GET "/nowhere"]
                       dst_world)) /\
  w_rng (snd (handle (Flask.GET power_path) (after [] sample_world)))
  = w_rng (snd (handle (Flask.GET power_path)
                       (after [Flask.GET health_path; Flask.GET "/nowhere"]
                              dst_world))).
Proof.
  apply (telemetry_handlers_stateless power_path
           [] [Flask.GET health_path; Flask.GET "/nowhere"]
           sample_world dst_world).
  - left. reflexivity.
  - reflexivity.
Defined.

End EnvSetupFacts.

(** ** The command line entry point *)

Module CliFacts.
Import EnvSetup.





Section Exit.
Variable parse : list string -> parse_outcome.


End Exit.


Example exit_status_test_ok : script parse_args [] fine_env = 0.
Proof. reflexivity. Qed.

Example exit_status_selftest_fails :
  script parse_args ["--mode"; "test"]
    {| e_getcwd := None; e_packages := None;
       e_imports := Some (Error ModuleNotFoundError "No module named 'yaml'");
       e_files := None; e_socket := None; e_app_run := None;
       e_gputil := None |} = 1.
Proof. reflexivity. Qed.

Example exit_status_server_interrupted :
  script parse_args ["--mode=mock-dcim"; "--port"; "9090"]
    {| e_getcwd := None; e_packages := None; e_imports := None;
       e_files := None; e_socket := None;
       e_app_run := Some KeyboardInterrupt;
       e_gputil := None |} = 0.
Proof. reflexivity. Qed.

(** The port is held by another process: the server leaves through
    [sys.exit(1)], and so does the script, with no self-test failure and
    no exception at the top level. *)
Example exit_status_port_held :
  script parse_args ["--mode"; "mock-dcim"] port_held_env = 1 /\
  ~ selftest_failed parse_args ["--mode"; "mock-dcim"] port_held_env /\
  ~ exception_reaches_top parse_args ["--mode"; "mock-dcim"] port_held_env.
Proof.
  split; [reflexivity |]. split.
  - intros (a & Ha & Hm & _). injection Ha as <-. discriminate Hm.
  - intros (c & m & Hx). discriminate Hx.
Qed.

Example exit_status_server_fails :
  script parse_args ["--mode"; "mock-dcim"] server_fails_env = 0.
Proof. reflexivity. Qed.

Example exit_status_benchmark_raises :
  script parse_args ["--mode"; "benchmark"]
    {| e_getcwd := None; e_packages := None; e_imports := None;
       e_files := None; e_socket := None; e_app_run := None;
       e_gputil := Some (Error ValueError "could not convert") |} = 1.
Proof. reflexivity. Qed.

End CliFacts.

(** ** Routing *)

Section Routing.
Context {W : Type}.

(** An answer comes from a registered route whose rule matches the path,
    called with the arguments the rule binds. *)
Lemma dispatch_request_ok (app : list (Flask.route W)) (rq : Flask.request)
  (w w' : W) (resp : Flask.response) :
  Flask.dispatch_request app rq w = (Ok resp, w') ->
  exists r view_args,
    In r app /\
    Flask.match_rule (Flask.r_rule r) (Flask.req_path rq) = Some view_args /\
    Flask.call_view (Flask.r_view r) view_args w = (Ok resp, w').
Proof.
  unfold Flask.dispatch_request.
  destruct (filter (Flask.matches_path (Flask.req_path rq)) app)
    as [|r0 rs] eqn:Hf; [discriminate |].
  destruct (find (Flask.allows (Flask.req_method rq)) (r0 :: rs))
    as [r|] eqn:Hfind; [| discriminate].
  destruct (Flask.match_rule (Flask.r_rule r) (Flask.req_path rq))
    as [view_args|] eqn:Hm; [| discriminate].
  intros Hcall. exists r, view_args.
  apply find_some in Hfind. destruct Hfind as [Hin _].
  rewrite <- Hf in Hin. apply filter_In in Hin.
  split; [apply Hin | split; [exact Hm | exact Hcall]].
Qed.
End Routing.

(** A rule without a variable segment binds no view argument. *)
Lemma match_segments_static (rule : list string) :
  Forall (fun seg => Flask.seg_var seg = None) rule ->
  forall path view_args,
    Flask.match_segments rule path = Some view_args -> view_args = [].
Proof.
  induction 1 as [|seg rule Hseg _ IH]; intros [|p path] view_args;
    cbn [Flask.match_segments]; try discriminate.
  - now intros [= <-].
  - rewrite Hseg. destruct (String.eqb seg p); [apply IH | discriminate].
Qed.

Lemma match_rule_static (rule path : string)
  (view_args : list (string * string)) :
  Forall (fun seg => Flask.seg_var seg = None) (Flask.split_on "/" rule) ->
  Flask.match_rule rule path = Some view_args -> view_args = [].
Proof. intros Hs. apply match_segments_static. exact Hs. Qed.

(** ** The demonstration API *)

Module ServerTestFacts.
Import ServerTest.

(** *** Dispatch *)

Lemma handle_alert (q : list (string * string)) (w : world) :
  handle (Flask.mkRequest "GET" alert_path q) w
  = (Raised (Exception "TypeError"
       "get_alert() missing 1 required positional argument: 'name'"), w).
Proof. reflexivity. Qed.

Lemma handle_metrics (q : list (string * string)) (w : world) :
  handle (Flask.mkRequest "GET" metrics_path q) w = get_current_metrics w.
Proof. reflexivity. Qed.

Lemma handle_remote (q : list (string * string)) (w : world) :
  handle (Flask.mkRequest "GET" remote_path q) w = get_remote_metrics w.
Proof. reflexivity. Qed.

(** No rule of [setup_routes] has a variable segment. *)
Lemma setup_routes_static (r : Flask.route world) :
  In r setup_routes ->
  Forall (fun seg => Flask.seg_var seg = None)
         (Flask.split_on "/" (Flask.r_rule r)).
Proof.
  intros [<- | [<- | [<- | [<- | [<- | []]]]]]; repeat constructor.
Qed.

(** *** Metrics *)

Lemma get_current_metrics_answer (w : world) :
  fst (get_current_metrics w)
  = Ok (Flask.jsonify (PDict (metrics_data_at (w_clock w O)))).
Proof. reflexivity. Qed.

(** C10: every GET request to [/api/metrics] is answered with a record
    whose [cpu_usage], [memory_usage], [disk_space] and [uptime] fields are
    the constants [45%], [67%], [23GB free] and [5 days, 3 hours]; its only
    other field is [timestamp], so two answers are equal once their
    timestamps are taken out. *)
Theorem metrics_constants (q1 q2 : list (string * string)) (w1 w2 : world) :
  exists r1 r2 d1,
    fst (handle (Flask.mkRequest "GET" metrics_path q1) w1) = Ok r1 /\
    fst (handle (Flask.mkRequest "GET" metrics_path q2) w2) = Ok r2 /\
    Flask.json_body r1 = PDict d1 /\
    keys d1 = ["cpu_usage"; "memory_usage"; "disk_space"; "uptime";
               "timestamp"] /\
    dict_get "cpu_usage" d1 = Some (PStr "45%") /\
    dict_get "memory_usage" d1 = Some (PStr "67%") /\
    dict_get "disk_space" d1 = Some (PStr "23GB free") /\
    dict_get "uptime" d1 = Some (PStr "5 days, 3 hours") /\
    Flask.status_code r1 = Flask.status_code r2 /\
    without "timestamp" (Flask.json_body r1)
    = without "timestamp" (Flask.json_body r2).
Proof.
  rewrite !handle_metrics, !get_current_metrics_answer.
  eexists. eexists. eexists.
  split; [reflexivity |]. split; [reflexivity |]. split; [reflexivity |].
  repeat split.
Qed.

(** *** Remote metrics *)

(** C7: when [requests.get] raises a connection error in the handler of
    [/api/metrics/remote], the handler returns the JSON error object (it has
    an [error] field) and raises nothing; it has asked the metrics URL once
    and used one outcome of the network: there is no second attempt. *)
Theorem remote_metrics_connection_refused
  (q : list (string * string)) (w : world) (cls msg : string) :
  w_net w O = Raised (Exception cls msg) ->
  is_connection_error cls = true ->
  exists w',
    handle (Flask.mkRequest "GET" remote_path q) w
    = (Ok connection_failed, w') /\
    (exists v, field "error" (Flask.json_body connection_failed) = Some v) /\
    w_sent w' = w_sent w ++ [metrics_url] /\
    (forall k, w_net w' k = w_net w (S k)).
Proof.
  intros Hnet Hcls. rewrite handle_remote.
  unfold get_remote_metrics, ebind, print, fetch_metrics, ebind, requests_get.
  cbn [w_net w_clock w_stdout w_sent]. rewrite Hnet, Hcls.
  eexists. split; [reflexivity |].
  split; [eexists; reflexivity |].
  split; reflexivity.
Qed.

(** *** The alert route *)

Lemma print_field_ok (label key : string) (v : pyval) (w w' : world) (u : unit) :
  print_field label key v w = (Ok u, w') ->
  exists x, subscript v key = Ok x.
Proof.
  unfold print_field, ebind, lift_result.
  destruct (subscript v key) as [x | e]; [eauto | discriminate].
Qed.

(** The first key of the body of every answer of [get_remote_metrics]. *)
Lemma get_remote_metrics_first_key (w w' : world) (r : Flask.response) :
  get_remote_metrics w = (Ok r, w') ->
  exists k v rest,
    Flask.json_body r = PDict ((k, v) :: rest) /\
    (k = "source" \/ k = "error").
Proof.
  unfold get_remote_metrics, ebind at 1. unfold print at 1.
  cbv beta iota.
  set (w1 := {| w_clock := w_clock w;
                w_stdout := w_stdout w ++ [Line "🌐 Making HTTP request during RUNTIME..."];
                w_net := w_net w; w_sent := w_sent w |}).
  destruct (fetch_metrics w1) as [[r0 | e] w2] eqn:Hfetch.
  - intros [= <- <-].
    revert Hfetch. unfold fetch_metrics, ebind at 1.
    destruct (requests_get metrics_url w1) as [[resp | e] w3];
      [| discriminate].
    destruct (hr_status_code resp =? 200).
    + unfold ebind at 1, lift_result.
      destruct (hr_json resp) as [metrics_data | e]; [| discriminate].
      repeat (unfold ebind at 1;
              match goal with
              | |- context [print ?o ?u] =>
                  destruct (print o u) as [[[] | ?] ?]; [| discriminate]
              | |- context [print_field ?l ?k ?v ?u] =>
                  destruct (print_field l k v u) as [[[] | ?] ?];
                  [| discriminate]
              end).
      unfold eret. intros [= <-].
      do 3 eexists. split; [reflexivity | auto].
    + unfold eret. intros [= <-].
      do 3 eexists. split; [reflexivity | auto].
  - destruct e as [| code | cls msg]; try discriminate.
    destruct (is_connection_error cls); intros [= <- <-];
      do 3 eexists; (split; [reflexivity | auto]).
Qed.

(** C6: every GET request to [/api/server_alert] raises [TypeError]: the
    rule binds no view argument on any path and [get_alert] requires
    [name].  No request at all, whatever its method, path and query, is
    answered with the alert JSON of the success branch. *)
Theorem alert_route_always_raises
  (q : list (string * string)) (rq : Flask.request) (w : world) :
  handle (Flask.mkRequest "GET" alert_path q) w
  = (Raised (Exception "TypeError"
       "get_alert() missing 1 required positional argument: 'name'"), w) /\
  (forall path view_args,
      Flask.match_rule alert_path path = Some view_args -> view_args = []) /\
  ~ (exists resp, fst (handle rq w) = Ok resp /\
                  is_alert_json (Flask.json_body resp)).
Proof.
  split; [apply handle_alert |]. split.
  { intros path view_args. apply match_rule_static. repeat constructor. }
  intros (resp & Hresp & name & Hjson).
  destruct (handle rq w) as [res w'] eqn:Hh. cbn [fst] in Hresp. subst res.
  apply dispatch_request_ok in Hh.
  destruct Hh as (r & view_args & Hin & Hmatch & Hcall).
  apply match_rule_static in Hmatch; [| apply setup_routes_static; exact Hin].
  subst view_args.
  destruct Hin as [<- | [<- | [<- | [<- | [<- | []]]]]];
    cbn [Flask.r_view Flask.call_view] in Hcall.
  - injection Hcall as <- _. cbn in Hjson. discriminate Hjson.
  - discriminate Hcall.
  - assert (Hr : Ok resp = fst (get_current_metrics w))
      by (rewrite Hcall; reflexivity).
    rewrite get_current_metrics_answer in Hr. injection Hr as ->.
    cbn in Hjson. discriminate Hjson.
  - apply get_remote_metrics_first_key in Hcall.
    destruct Hcall as (k & v & rest & Hbody & Hk).
    rewrite Hbody in Hjson. injection Hjson as Hk' _. subst k.
    destruct Hk; discriminate.
  - injection Hcall as <- _. cbn in Hjson. discriminate Hjson.
Qed.

(** *** Concrete runs *)

(** C7 in a world where nothing listens on port 9000. *)
Lemma remote_metrics_connection_refused_witness :
  exists w',
    handle (Flask.mkRequest "GET" remote_path []) refused_world
    = (Ok connection_failed, w') /\
    (exists v, field "error" (Flask.json_body connection_failed) = Some v) /\
    w_sent w' = w_sent refused_world ++ [metrics_url] /\
    (forall k, w_net w' k = w_net refused_world (S k)).
Proof.
  apply (remote_metrics_connection_refused [] refused_world
           "ConnectionError" "Connection refused");
    reflexivity.
Defined.

End ServerTestFacts.

(* ===================================================================== *)
(** * More of the scripts *)
(* ===================================================================== *)

(** ** Rules without variables *)

Lemma split_on_nonempty (c : ascii) (s : string) : Flask.split_on c s <> [].
Proof.
  destruct s as [|a s]; cbn [Flask.split_on]; [discriminate |].
  destruct (Ascii.eqb a c); [discriminate |].
  destruct (Flask.split_on c s); discriminate.
Qed.

(** Splitting a path and joining the segments gives the path back. *)
Lemma join_split_on (c : ascii) (s : string) :
  Flask.join_on c (Flask.split_on c s) = s.
Proof.
  induction s as [|a s IH]; [reflexivity |].
  cbn [Flask.split_on].
  pose proof (split_on_nonempty c s) as Hne.
  destruct (Ascii.eqb_spec a c) as [-> | Hac].
  - destruct (Flask.split_on c s) as [|seg rest]; [contradiction |].
    cbn [Flask.join_on String.append] in *. now rewrite IH.
  - destruct (Flask.split_on c s) as [|seg rest]; [contradiction |].
    cbn [Flask.join_on] in *. destruct rest as [|seg' rest].
    + now rewrite IH.
    + cbn [String.append]. now rewrite IH.
Qed.

Lemma split_on_inj (c : ascii) (s1 s2 : string) :
  Flask.split_on c s1 = Flask.split_on c s2 -> s1 = s2.
Proof.
  intros H. rewrite <- (join_split_on c s1), <- (join_split_on c s2).
  now rewrite H.
Qed.

Lemma match_segments_static_eq (rule : list string) :
  Forall (fun seg => Flask.seg_var seg = None) rule ->
  forall path view_args,
    Flask.match_segments rule path = Some view_args -> path = rule.
Proof.
  induction 1 as [|seg rule Hseg _ IH]; intros [|p path] view_args;
    cbn [Flask.match_segments]; try discriminate.
  - reflexivity.
  - rewrite Hseg. destruct (String.eqb_spec seg p) as [-> | _];
      [| discriminate].
    intros H. f_equal. exact (IH _ _ H).
Qed.

Lemma match_segments_static_refl (rule : list string) :
  Forall (fun seg => Flask.seg_var seg = None) rule ->
  Flask.match_segments rule rule = Some [].
Proof.
  induction 1 as [|seg rule Hseg _ IH]; cbn [Flask.match_segments].
  - reflexivity.
  - now rewrite Hseg, String.eqb_refl.
Qed.

(** A rule without variables matches its own text and nothing else. *)
Lemma matches_path_static {W : Type} (r : Flask.route W) (path : string) :
  Flask.static_rule (Flask.r_rule r) ->
  Flask.matches_path path r = String.eqb (Flask.r_rule r) path.
Proof.
  intros Hs. unfold Flask.matches_path, Flask.match_rule.
  destruct (String.eqb_spec (Flask.r_rule r) path) as [<- | Hne].
  - now rewrite match_segments_static_refl.
  - destruct (Flask.match_segments _ _) as [view_args|] eqn:Hm;
      [| reflexivity].
    exfalso. apply Hne. symmetry. apply (split_on_inj "/").
    exact (match_segments_static_eq _ Hs _ _ Hm).
Qed.


(** An application raises [MethodNotAllowed], and leaves the world as it
    is, when some rule matches the path and none that does serves the
    method. *)
Lemma dispatch_method_not_allowed {W : Type} (app : list (Flask.route W))
  (rq : Flask.request) (w : W) :
  (exists r, In r app /\ Flask.matches_path (Flask.req_path rq) r = true) ->
  (forall r, In r app ->
             Flask.matches_path (Flask.req_path rq) r = true ->
             Flask.allows (Flask.req_method rq) r = false) ->
  Flask.dispatch_request app rq w
  = (Raised (Exception "MethodNotAllowed" "405 Method Not Allowed"), w).
Proof.
  intros (r0 & Hin0 & Hm0) Hnone. unfold Flask.dispatch_request.
  destruct (filter (Flask.matches_path (Flask.req_path rq)) app)
    as [|r1 rs] eqn:Hf.
  - exfalso.
    assert (Hin : In r0 (filter (Flask.matches_path (Flask.req_path rq)) app))
      by (apply filter_In; split; assumption).
    rewrite Hf in Hin. exact Hin.
  - destruct (find (Flask.allows (Flask.req_method rq)) (r1 :: rs))
      as [r|] eqn:Hfind; [| reflexivity].
    exfalso. apply find_some in Hfind. destruct Hfind as [Hin Hallow].
    rewrite <- Hf in Hin. apply filter_In in Hin. destruct Hin as [Hin Hm].
    rewrite (Hnone r Hin Hm) in Hallow. discriminate.
Qed.

(** A rule is static when a scan of its segments finds no variable. *)
Lemma static_literal (rule : string) :
  forallb (fun seg => match Flask.seg_var seg with
                      | None => true
                      | Some _ => false
                      end)
          (Flask.split_on "/" rule) = true ->
  Flask.static_rule rule.
Proof.
  intros H. unfold Flask.static_rule. apply Forall_forall. intros seg Hin.
  rewrite forallb_forall in H. specialize (H seg Hin).
  destruct (Flask.seg_var seg); [discriminate | reflexivity].
Qed.

(** ** More of the mock DCIM server *)

Module EnvSetupMore.
Import EnvSetup.

Lemma lex_compare_eq (l1 : list Z) :
  forall l2, lex_compare l1 l2 = Eq -> l1 = l2.
Proof.
  induction l1 as [|x l1 IH]; intros [|y l2]; cbn [lex_compare];
    try discriminate; [reflexivity |].
  destruct (Z.compare_spec x y) as [-> | |]; try discriminate.
  intros H. f_equal. exact (IH _ H).
Qed.

Lemma datetime_compare_eq (d1 d2 : datetime) :
  datetime_compare d1 d2 = Eq -> d1 = d2.
Proof.
  intros H. apply lex_compare_eq in H.
  destruct d1, d2. unfold datetime_fields in H. cbn in H.
  now injection H as -> -> -> -> -> -> ->.
Qed.

Section Server.
Context {RS : RandomSource}.


Lemma mock_routes_get_only (m : string) (r : Flask.route world) :
  In r create_mock_dcim_server -> m <> "GET" -> Flask.allows m r = false.
Proof.
  intros Hin Hm. apply String.eqb_neq in Hm.
  destruct Hin as [<- | [<- | [<- | [<- | []]]]];
    unfold Flask.allows; cbn [Flask.r_methods existsb]; now rewrite Hm.
Qed.

(** *** Requests the server does not route *)


(** X2: a method other than [GET] (and than [HEAD] and [OPTIONS], which
    Flask adds to a [GET] route) on one of the four paths raises
    [MethodNotAllowed], and no handler runs. *)
Theorem other_methods_not_allowed
  (m p : string) (q : list (string * string)) (w : world) :
  In p all_paths -> m <> "GET" -> m <> "HEAD" -> m <> "OPTIONS" ->
  handle (Flask.mkRequest m p q) w
  = (Raised (Exception "MethodNotAllowed" "405 Method Not Allowed"), w).
Proof.
  intros Hp Hget _ _. apply dispatch_method_not_allowed.
  - cbn [Flask.req_path].
    destruct Hp as [<- | [<- | [<- | [<- | []]]]].
    + eexists. split; [left; reflexivity | reflexivity].
    + eexists. split; [right; left; reflexivity | reflexivity].
    + eexists. split; [do 2 right; left; reflexivity | reflexivity].
    + eexists. split; [do 3 right; left; reflexivity | reflexivity].
  - intros r Hin _. apply mock_routes_get_only; assumption.
Qed.

(** *** What the handlers leave alone *)

Lemma frames_ret {A : Type} (a : A) : frames (ret a).
Proof. intros w. split; reflexivity. Qed.

Lemma frames_draw {A : Type} (f : rng -> A * rng) : frames (draw f).
Proof.
  intros w. unfold draw. destruct (f (w_rng w)). split; reflexivity.
Qed.

Lemma frames_bind {A B : Type} (c : State world A) (k : A -> State world B) :
  frames c -> (forall a, frames (k a)) -> frames (bind c k).
Proof.
  intros Hc Hk w. unfold bind. specialize (Hc w).
  destruct (c w) as [a w1]. cbn [snd] in Hc. destruct Hc as [Hc Hl].
  destruct (Hk a w1) as [Hc' Hl']. split; congruence.
Qed.

Lemma frames_for_append {A B : Type} (body : A -> State world B)
  (xs : list A) :
  (forall x, frames (body x)) -> forall acc, frames (for_append xs body acc).
Proof.
  intros Hbody. induction xs as [|x xs IH]; intros acc; cbn [for_append].
  - apply frames_ret.
  - apply frames_bind; [apply Hbody | intros v; apply IH].
Qed.

Lemma frames_rack_record (i : Z) : frames (rack_record i).
Proof.
  unfold rack_record. apply frames_bind; [apply frames_draw |].
  intros a. apply frames_ret.
Qed.

Lemma frames_sensor_record (item : Z * (string * string)) :
  frames (sensor_record item).
Proof.
  destruct item as [i [loc ty]]. unfold sensor_record.
  apply frames_bind; [apply frames_draw |]. intros a. apply frames_ret.
Qed.

Lemma frames_unit_record (i : Z) : frames (unit_record i).
Proof.
  unfold unit_record. apply frames_bind; [apply frames_draw |]. intros s.
  apply frames_bind; [apply frames_draw |]. intros a. apply frames_ret.
Qed.

(** What a handler made of a loop and one log record leaves behind. *)
Lemma loop_then_log {A : Type} (xs : list A) (body : A -> State world pyval)
  (msg : list pyval -> string) (answer : list pyval -> Flask.response)
  (w : world) :
  (forall x, frames (body x)) ->
  let h := (items <- for_append xs body [] ;;
            logger_info (msg items) ;;; ret (answer items)) in
  w_clock (snd (h w)) = w_clock w /\
  w_log (snd (h w))
  = w_log w ++ [msg (fst (for_append xs body [] w))].
Proof.
  intros Hbody. cbv zeta. unfold bind.
  destruct (frames_for_append body xs Hbody [] w) as [Hc Hl].
  destruct (for_append xs body [] w) as [items w1].
  cbn [fst snd logger_info ret w_clock w_log] in *.
  split; congruence.
Qed.

(** X3: each telemetry handler sends exactly one record to the logger, and
    the count the record states is the number of items the answer holds
    (always 3); the handler takes no reading of [datetime.now()]. *)
Theorem telemetry_log_records (w : world) :
  (w_log (snd (get_rack_power w))
   = w_log w ++ ["Mock DCIM: Serving power data for 3 racks"] /\
   w_clock (snd (get_rack_power w)) = w_clock w) /\
  (w_log (snd (get_temperature w))
   = w_log w ++ ["Mock DCIM: Serving temperature data for 3 sensors"] /\
   w_clock (snd (get_temperature w)) = w_clock w) /\
  (w_log (snd (get_cooling_status w))
   = w_log w ++ ["Mock DCIM: Serving cooling data for 3 units"] /\
   w_clock (snd (get_cooling_status w)) = w_clock w).
Proof.
  split; [| split].
  - destruct (loop_then_log (py_range 1 4) rack_record
                (fun racks => "Mock DCIM: Serving power data for "
                              +++ str_int (len racks) +++ " racks")
                (fun racks => Flask.jsonify (PDict [("racks", PList racks)]))
                w frames_rack_record) as [Hc Hl].
    split; [| exact Hc]. unfold get_rack_power. rewrite Hl.
    unfold len. rewrite for_append_length. reflexivity.
  - destruct (loop_then_log (enumerate (zip locations types)) sensor_record
                (fun sensors => "Mock DCIM: Serving temperature data for "
                                +++ str_int (len sensors) +++ " sensors")
                (fun sensors =>
                   Flask.jsonify (PDict [("sensors", PList sensors)]))
                w frames_sensor_record) as [Hc Hl].
    split; [| exact Hc]. unfold get_temperature. rewrite Hl.
    unfold len. rewrite for_append_length. reflexivity.
  - destruct (loop_then_log (py_range 1 4) unit_record
                (fun units => "Mock DCIM: Serving cooling data for "
                              +++ str_int (len units) +++ " units")
                (fun units =>
                   Flask.jsonify (PDict [("cooling_units", PList units)]))
                w frames_unit_record) as [Hc Hl].
    split; [| exact Hc]. unfold get_cooling_status. rewrite Hl.
    unfold len. rewrite for_append_length. reflexivity.
Qed.

(** X4: the health check draws nothing from the generator and logs
    nothing, so a telemetry request that follows a health check is answered
    as it would have been without it. *)
Theorem health_check_keeps_generator (w : world) :
  let w' := snd (handle (Flask.GET health_path) w) in
  w_rng w' = w_rng w /\ w_log w' = w_log w /\
  fst (handle (Flask.GET power_path) w')
  = fst (handle (Flask.GET power_path) w) /\
  fst (handle (Flask.GET temperature_path) w')
  = fst (handle (Flask.GET temperature_path) w) /\
  fst (handle (Flask.GET cooling_path) w')
  = fst (handle (Flask.GET cooling_path) w).
Proof.
  cbv zeta. unfold Flask.GET.
  rewrite EnvSetupFacts.handle_health.
  assert (Hrng : w_rng (snd (returns health_check w)) = w_rng w)
    by reflexivity.
  split; [exact Hrng |]. split; [reflexivity |].
  rewrite !EnvSetupFacts.handle_power, !EnvSetupFacts.handle_temperature,
    !EnvSetupFacts.handle_cooling.
  split; [| split].
  - apply EnvSetupFacts.rng_determined_returns;
      [apply EnvSetupFacts.rng_determined_get_rack_power | exact Hrng].
  - apply EnvSetupFacts.rng_determined_returns;
      [apply EnvSetupFacts.rng_determined_get_temperature | exact Hrng].
  - apply EnvSetupFacts.rng_determined_returns;
      [apply EnvSetupFacts.rng_determined_get_cooling_status | exact Hrng].
Qed.

(** *** The fixed part of the answers *)

(** X5: whatever the generator gives, the power endpoint answers with the
    same labels: racks [rack-01] and [rack-02] in [Row-1] and [rack-03] in
    [Row-2], each with the PDU of its own number. *)
Theorem power_labels_fixed (q : list (string * string)) (w : world) :
  map (fun r => (field "id" r, field "location" r, field "pdu_id" r))
      (items "racks"
         (body_of (fst (handle (Flask.mkRequest "GET" power_path q) w))))
  = [(Some (PStr "rack-01"), Some (PStr "Row-1"), Some (PStr "pdu-01"));
     (Some (PStr "rack-02"), Some (PStr "Row-1"), Some (PStr "pdu-02"));
     (Some (PStr "rack-03"), Some (PStr "Row-2"), Some (PStr "pdu-03"))].
Proof.
  rewrite EnvSetupFacts.handle_power, EnvSetupFacts.returns_fst,
    EnvSetupFacts.get_rack_power_answer.
  cbn [body_of Flask.json_body Flask.jsonify].
  rewrite EnvSetupFacts.items_single.
  rewrite (for_append_map rack_record
             (fun r => (field "id" r, field "location" r, field "pdu_id" r))
             (fun i => (Some (PStr ("rack-" +++ fmt_0d 2 i)),
                        Some (PStr ("Row-" +++ str_int ((i - 1) / 2 + 1))),
                        Some (PStr ("pdu-" +++ fmt_0d 2 i))))).
  - reflexivity.
  - intros i s. unfold rack_record, bind, draw.
    destruct (randint 7500 8500 (w_rng s)); reflexivity.
Qed.

(** X6: the temperature sensors are numbered from 0 ([temp-00], [temp-01],
    [temp-02]), unlike the racks and the cooling units, and their
    identifiers are pairwise distinct. *)
Theorem temperature_ids_from_zero (q : list (string * string)) (w : world) :
  let ids :=
    map (field "id")
        (items "sensors"
           (body_of
              (fst (handle (Flask.mkRequest "GET" temperature_path q) w)))) in
  ids = [Some (PStr "temp-00"); Some (PStr "temp-01"); Some (PStr "temp-02")]
  /\ NoDup ids.
Proof.
  rewrite EnvSetupFacts.handle_temperature, EnvSetupFacts.returns_fst,
    EnvSetupFacts.get_temperature_answer.
  cbn [body_of Flask.json_body Flask.jsonify].
  rewrite EnvSetupFacts.items_single. cbv zeta.
  rewrite (for_append_map sensor_record (field "id")
             (fun item => Some (PStr ("temp-" +++ fmt_0d 2 (fst item))))).
  - split; [reflexivity |].
    repeat constructor; cbn; intuition discriminate.
  - intros [i [loc ty]] s. unfold sensor_record, bind, draw.
    destruct (uniform 20 30 (w_rng s)); reflexivity.
Qed.

(** X7: whatever the generator gives, the cooling endpoint answers with
    exactly three units, [crac-01] to [crac-03], in [Zone-1] to [Zone-3]. *)
Theorem cooling_labels_fixed (q : list (string * string)) (w : world) :
  map (fun u => (field "id" u, field "location" u))
      (items "cooling_units"
         (body_of (fst (handle (Flask.mkRequest "GET" cooling_path q) w))))
  = [(Some (PStr "crac-01"), Some (PStr "Zone-1"));
     (Some (PStr "crac-02"), Some (PStr "Zone-2"));
     (Some (PStr "crac-03"), Some (PStr "Zone-3"))].
Proof.
  rewrite EnvSetupFacts.handle_cooling, EnvSetupFacts.returns_fst,
    EnvSetupFacts.get_cooling_status_answer.
  cbn [body_of Flask.json_body Flask.jsonify].
  rewrite EnvSetupFacts.items_single.
  rewrite (for_append_map unit_record
             (fun u => (field "id" u, field "location" u))
             (fun i => (Some (PStr ("crac-" +++ fmt_0d 2 i)),
                        Some (PStr ("Zone-" +++ str_int i))))).
  - reflexivity.
  - intros i s. unfold unit_record, bind, draw.
    destruct (choice status_first status_rest (w_rng s)) as [st g1].
    cbn [w_rng]. destruct (randint 60 85 g1); reflexivity.
Qed.

(** *** Timestamps *)

(** X8: the timestamps of two health answers compare, as strings, exactly
    as the clock readings they were made from; in particular equal
    timestamps come from equal readings, down to the microsecond. *)
Theorem health_timestamps_reflect_clock (w1 w2 : world) :
  valid_datetime (w_clock w1 O) -> valid_datetime (w_clock w2 O) ->
  let t1 := timestamp_of (fst (handle (Flask.GET health_path) w1)) in
  let t2 := timestamp_of (fst (handle (Flask.GET health_path) w2)) in
  String.compare t1 t2 = datetime_compare (w_clock w1 O) (w_clock w2 O) /\
  (t1 = t2 -> w_clock w1 O = w_clock w2 O).
Proof.
  intros V1 V2. unfold Flask.GET. rewrite !EnvSetupFacts.handle_health.
  change (timestamp_of (fst (returns health_check w1)))
    with (isoformat (w_clock w1 O)).
  change (timestamp_of (fst (returns health_check w2)))
    with (isoformat (w_clock w2 O)).
  cbv zeta. pose proof (isoformat_compare _ _ V1 V2) as Hc.
  split; [exact Hc |].
  intros Heq. apply datetime_compare_eq. rewrite <- Hc, Heq.
  clear. induction (isoformat (w_clock w2 O)) as [|c s IH]; cbn;
    [reflexivity |]. now rewrite ascii_compare_refl.
Qed.

(** *** The start-up text *)

(** X9: every URL [run_mock_dcim_server] prints is the host and the port
    followed by a path the server routes, one line for each route in the
    order the routes are registered, and a GET request to the path of each
    line is answered by the handler the line names: the power line by
    [get_rack_power], with a list of [racks]; the temperature line by
    [get_temperature], with a list of [sensors]; the cooling line by
    [get_cooling_status], with a list of [cooling_units]; the health line
    by [health_check], with the status [healthy]. *)
Theorem advertised_endpoints_are_routed (port : Z) (w : world) :
  map snd (advertised port)
  = map (fun r => "http://localhost:" +++ str_int port +++ Flask.r_rule r)
        create_mock_dcim_server /\
  List.length (server_banner port)
  = (List.length create_mock_dcim_server + 2)%nat /\
  advertised port
  = [("📡 Power endpoint: ",
      "http://localhost:" +++ str_int port +++ power_path);
     ("🌡️  Temperature endpoint: ",
      "http://localhost:" +++ str_int port +++ temperature_path);
     ("❄️  Cooling endpoint: ",
      "http://localhost:" +++ str_int port +++ cooling_path);
     ("💓 Health check: ",
      "http://localhost:" +++ str_int port +++ health_path)] /\
  (handle (Flask.GET power_path) w = returns get_rack_power w /\
   exists racks,
     field "racks" (body_of (fst (handle (Flask.GET power_path) w)))
     = Some (PList racks)) /\
  (handle (Flask.GET temperature_path) w = returns get_temperature w /\
   exists sensors,
     field "sensors" (body_of (fst (handle (Flask.GET temperature_path) w)))
     = Some (PList sensors)) /\
  (handle (Flask.GET cooling_path) w = returns get_cooling_status w /\
   exists units,
     field "cooling_units"
           (body_of (fst (handle (Flask.GET cooling_path) w)))
     = Some (PList units)) /\
  (handle (Flask.GET health_path) w = returns health_check w /\
   field "status" (body_of (fst (handle (Flask.GET health_path) w)))
   = Some (PStr "healthy")).
Proof.
  split; [reflexivity |]. split; [reflexivity |]. split; [reflexivity |].
  unfold Flask.GET.
  rewrite EnvSetupFacts.handle_power, EnvSetupFacts.handle_temperature,
    EnvSetupFacts.handle_cooling, EnvSetupFacts.handle_health.
  rewrite !EnvSetupFacts.returns_fst.
  rewrite EnvSetupFacts.get_rack_power_answer,
    EnvSetupFacts.get_temperature_answer,
    EnvSetupFacts.get_cooling_status_answer.
  cbn [body_of Flask.json_body Flask.jsonify].
  rewrite !EnvSetupFacts.field_single.
  repeat split; eauto.
Qed.

End Server.

(** X8 on two worlds whose clocks read one second apart. *)
Lemma health_timestamps_reflect_clock_witness :
  let t1 := timestamp_of (fst (handle (Flask.GET health_path) sample_world)) in
  let t2 := timestamp_of (fst (handle (Flask.GET health_path) dst_world)) in
  String.compare t1 t2
  = datetime_compare (w_clock sample_world O) (w_clock dst_world O) /\
  (t1 = t2 -> w_clock sample_world O = w_clock dst_world O).
Proof.
  apply (health_timestamps_reflect_clock sample_world dst_world);
    cbv; intuition discriminate.
Defined.


(** X2 on a POST to the power endpoint. *)
Lemma other_methods_not_allowed_witness :
  handle (Flask.mkRequest "POST" power_path []) sample_world
  = (Raised (Exception "MethodNotAllowed" "405 Method Not Allowed"),
     sample_world).
Proof.
  apply (other_methods_not_allowed "POST" power_path [] sample_world);
    [left; reflexivity | discriminate ..].
Defined.

End EnvSetupMore.

(** ** More of the command line entry point *)

Module CliMore.
Import EnvSetup.

(** *** The self-test *)

(** [except ImportError] catches the exceptions whose class is
    [ImportError] or has it among the classes it derives from. *)
Lemma is_import_error_spec (cls : exc_class) :
  is_import_error cls = true <->
  cls_name cls = "ImportError" \/ In "ImportError" (cls_bases cls).
Proof.
  unfold is_import_error. rewrite orb_true_iff, String.eqb_eq, existsb_exists.
  split; (intros [H | H]; [now left | right]).
  - destruct H as (b & Hb & He). apply String.eqb_eq in He. now subst b.
  - exists "ImportError". split; [exact H | apply String.eqb_refl].
Qed.

Lemma not_import_error_spec (cls : exc_class) :
  is_import_error cls = false <->
  cls_name cls <> "ImportError" /\ ~ In "ImportError" (cls_bases cls).
Proof.
  pose proof (is_import_error_spec cls) as H.
  destruct (is_import_error cls); split.
  - discriminate.
  - intros [H1 H2]. destruct (proj1 H eq_refl); contradiction.
  - intros _. split; intros Hc; [assert (false = true) by (apply H; now left)
                                | assert (false = true) by (apply H; now right)];
      discriminate.
  - reflexivity.
Qed.

(** X10: the self-test returns [True] exactly when the three probes
    (imports, file system, socket) all complete; the only exception it lets
    through, interrupts apart, is one the import probe raises whose class is
    not [ImportError] and does not derive from it: the exception at the top
    level has the name and the message of that one. *)
Theorem self_test_passes_iff (e : env) :
  (test_basic_functionality e = Ok true <->
   e_imports e = None /\ e_files e = None /\ e_socket e = None) /\
  (forall cls msg,
      test_basic_functionality e = Raised (Exception cls msg) ->
      exists c, e_imports e = Some (Error c msg) /\ cls_name c = cls /\
                cls_name c <> "ImportError" /\
                ~ In "ImportError" (cls_bases c)) /\
  (forall c msg,
      e_imports e = Some (Error c msg) ->
      test_basic_functionality e =
      if is_import_error c then Ok false
      else Raised (Exception (cls_name c) msg)).
Proof.
  unfold test_basic_functionality. split; [| split].
  - destruct (e_imports e) as [[|cls msg]|];
      [split; [discriminate | intros [H _]; discriminate H]
      | destruct (is_import_error cls);
        split; [discriminate | intros [H _]; discriminate H
               | discriminate | intros [H _]; discriminate H]
      |].
    destruct (e_files e) as [[|c1 m1]|];
      [split; [discriminate | intros [_ [H _]]; discriminate H] ..|].
    destruct (e_socket e) as [[|c2 m2]|];
      [split; [discriminate | intros [_ [_ H]]; discriminate H] ..|].
    split; auto.
  - intros cls msg.
    destruct (e_imports e) as [[|c0 m0]|]; [discriminate | |].
    + destruct (is_import_error c0) eqn:Hc; [discriminate |].
      intros [= <- <-]. exists c0.
      apply not_import_error_spec in Hc. tauto.
    + destruct (e_files e) as [[|c1 m1]|]; try discriminate.
      destruct (e_socket e) as [[|c2 m2]|]; discriminate.
  - intros c msg ->. reflexivity.
Qed.

Section Exit.
Variable parse : list string -> parse_outcome.

(** *** The exit status, mode by mode *)


(** X12: in mode benchmark the exit status is 1 exactly when the GPU part
    raises an exception whose class is not [ImportError] and does not
    derive from it; an [ImportError] or an exception of one of its
    subclasses (a missing [GPUtil], one that cannot be loaded from its
    archive) and an interrupt all leave it at 0. *)
Theorem benchmark_exit_status (argv : list string) (e : env) (a : args) :
  parse argv = Parsed a -> a_mode a = ModeBenchmark ->
  (script parse argv e = 1 <->
   exists cls msg, e_gputil e = Some (Error cls msg) /\
                   cls_name cls <> "ImportError" /\
                   ~ In "ImportError" (cls_bases cls)) /\
  (script parse argv e = 0 \/ script parse argv e = 1).
Proof.
  intros Hp Hm. unfold script, main, run_quick_benchmark. rewrite Hp, Hm.
  destruct (e_gputil e) as [[|cls msg]|].
  - split; [split; [discriminate | intros (c & m & H & _); discriminate H]
           | auto].
  - destruct (is_import_error cls) eqn:Hc.
    + split; [| auto]. split; [discriminate |].
      intros (c & m & [= <- <-] & Hf).
      apply not_import_error_spec in Hf. congruence.
    + split; [| auto]. split; [| reflexivity].
      intros _. exists cls, msg. split; [reflexivity |].
      now apply not_import_error_spec.
  - split; [split; [discriminate | intros (c & m & H & _); discriminate H]
           | auto].
Qed.

(** X13: in mode info the exit status is 1 exactly when reading the
    working directory or the script path raises an exception; a failure of
    the package check is printed and leaves the status at 0. *)
Theorem info_exit_status (argv : list string) (e : env) (a : args) :
  parse argv = Parsed a -> a_mode a = ModeInfo ->
  (script parse argv e = 1 <->
   exists cls msg, e_getcwd e = Some (Error cls msg)) /\
  (script parse argv e = 0 \/ script parse argv e = 1).
Proof.
  intros Hp Hm. unfold script, main, show_system_info. rewrite Hp, Hm.
  destruct (e_getcwd e) as [[|cls msg]|]; cbn [raise_fault].
  - split; [split; [discriminate | intros (c & m & H); discriminate H]
           | auto].
  - split; [split; [eauto | reflexivity] | auto].
  - destruct (e_packages e) as [[|c m]|];
      (split; [split; [discriminate | intros (c' & m' & H); discriminate H]
              | auto]).
Qed.

Ltac failed_run :=
  cbn; split;
  [split; [discriminate | intros (Ha & Hb & Hc & Hd); discriminate] | auto].

(** X14: in mode test, when no step is interrupted, the exit status is 0
    exactly when the working directory can be read and the three probes of
    the self-test complete, and 1 otherwise; the package check has no part
    in it. *)
Theorem test_exit_status (argv : list string) (e : env) (a : args) :
  parse argv = Parsed a -> a_mode a = ModeTest ->
  e_getcwd e <> Some Interrupt -> e_packages e <> Some Interrupt ->
  e_imports e <> Some Interrupt -> e_files e <> Some Interrupt ->
  e_socket e <> Some Interrupt ->
  (script parse argv e = 0 <->
   e_getcwd e = None /\ e_imports e = None /\ e_files e = None /\
   e_socket e = None) /\
  (script parse argv e = 0 \/ script parse argv e = 1).
Proof.
  intros Hp Hm H1 H2 H3 H4 H5.
  unfold script, main, show_system_info, test_basic_functionality.
  rewrite Hp, Hm.
  destruct (e_getcwd e) as [[|c1 m1]|]; [congruence | failed_run |].
  destruct (e_packages e) as [[|c m]|]; [congruence | |];
    (destruct (e_imports e) as [[|c2 m2]|];
     [congruence | destruct (is_import_error c2); failed_run |];
     destruct (e_files e) as [[|c3 m3]|]; [congruence | failed_run |];
     destruct (e_socket e) as [[|c4 m4]|]; [congruence | failed_run |];
     cbn; split; [split; auto | auto]).
Qed.
End Exit.

(** *** The CPU task of the benchmark *)

Lemma py_range_succ (n : Z) :
  0 <= n -> py_range 0 (n + 1) = py_range 0 n ++ [n].
Proof.
  intros Hn. unfold py_range.
  replace (Z.to_nat (n + 1 - 0)) with (S (Z.to_nat (n - 0))) by lia.
  rewrite seq_S, map_app. cbn [map Nat.add]. f_equal. f_equal. lia.
Qed.

Lemma sum_squares_below_succ (n : Z) :
  0 <= n -> sum_squares_below (n + 1) = sum_squares_below n + n * n.
Proof.
  intros Hn. unfold sum_squares_below.
  rewrite py_range_succ by exact Hn.
  now rewrite map_app, fold_left_app.
Qed.

Lemma six_sum_squares_below (k : nat) :
  6 * sum_squares_below (Z.of_nat k)
  = (Z.of_nat k - 1) * Z.of_nat k * (2 * Z.of_nat k - 1).
Proof.
  induction k as [|k IH]; [reflexivity |].
  rewrite Nat2Z.inj_succ. unfold Z.succ.
  rewrite sum_squares_below_succ by lia. nia.
Qed.

(** X15: the sum the CPU task computes over [range(n)] is
    [(n - 1) n (2 n - 1) / 6]; for the 100000 of the script it is
    333328333350000. *)
Theorem sum_squares_below_closed_form (n : Z) :
  0 <= n -> sum_squares_below n = (n - 1) * n * (2 * n - 1) / 6.
Proof.
  intros Hn. pose proof (six_sum_squares_below (Z.to_nat n)) as H.
  rewrite Z2Nat.id in H by exact Hn.
  apply Z.div_unique_exact; [lia |]. symmetry. exact H.
Qed.

Lemma sum_squares_below_closed_form_witness :
  0 <= 100000 /\ benchmark_result = 333328333350000.
Proof.
  split; [lia |]. unfold benchmark_result.
  rewrite (sum_squares_below_closed_form 100000) by lia. reflexivity.
Defined.


Lemma benchmark_exit_status_witness :
  (script parse_args ["--mode"; "benchmark"] zipped_gputil_env = 1 <->
   exists cls msg, e_gputil zipped_gputil_env = Some (Error cls msg) /\
                   cls_name cls <> "ImportError" /\
                   ~ In "ImportError" (cls_bases cls)) /\
  (script parse_args ["--mode"; "benchmark"] zipped_gputil_env = 0 \/
   script parse_args ["--mode"; "benchmark"] zipped_gputil_env = 1).
Proof.
  apply (benchmark_exit_status parse_args ["--mode"; "benchmark"]
           zipped_gputil_env {| a_mode := ModeBenchmark; a_port := 8080 |});
    reflexivity.
Defined.

(** [GPUtil] is there and cannot be loaded from its archive: the
    exception is a [ZipImportError], which [except ImportError] catches. *)
Example benchmark_zip_import_error :
  script parse_args ["--mode"; "benchmark"] zipped_gputil_env = 0.
Proof. reflexivity. Qed.

Example self_test_zip_import_error :
  test_basic_functionality
    {| e_getcwd := None; e_packages := None;
       e_imports := Some (Error ZipImportError "can't decompress data");
       e_files := None; e_socket := None; e_app_run := None;
       e_gputil := None |} = Ok false.
Proof. reflexivity. Qed.

Lemma info_exit_status_witness :
  (script parse_args ["--mode"; "info"] no_pkg_resources_env = 1 <->
   exists cls msg, e_getcwd no_pkg_resources_env = Some (Error cls msg)) /\
  (script parse_args ["--mode"; "info"] no_pkg_resources_env = 0 \/
   script parse_args ["--mode"; "info"] no_pkg_resources_env = 1).
Proof.
  apply (info_exit_status parse_args ["--mode"; "info"]
           no_pkg_resources_env {| a_mode := ModeInfo; a_port := 8080 |});
    reflexivity.
Defined.

Lemma test_exit_status_witness :
  (script parse_args [] no_pkg_resources_env = 0 <->
   e_getcwd no_pkg_resources_env = None /\
   e_imports no_pkg_resources_env = None /\
   e_files no_pkg_resources_env = None /\
   e_socket no_pkg_resources_env = None) /\
  (script parse_args [] no_pkg_resources_env = 0 \/
   script parse_args [] no_pkg_resources_env = 1).
Proof.
  apply (test_exit_status parse_args [] no_pkg_resources_env default_args);
    first [reflexivity | discriminate].
Defined.

End CliMore.

(** ** More of the demonstration API *)

Module ServerTestMore.
Import ServerTest.

Lemma setup_rules_static :
  Forall (fun r => Flask.static_rule (Flask.r_rule r)) setup_routes.
Proof.
  unfold setup_routes.
  repeat (apply Forall_cons; [apply static_literal; reflexivity |]).
  apply Forall_nil.
Qed.

(** *** Requests the application does not route *)


(** X17: the start-up text lists [GET /api/alert], which no route serves:
    it is the only listed endpoint without a route, every GET request to it
    raises [NotFound], and the path the alert handler is registered under,
    [/api/server_alert], is not listed. *)
Theorem listed_alert_endpoint_not_routed
  (q : list (string * string)) (w : world) :
  filter (fun mp => negb (Flask.routed setup_routes (fst mp) (snd mp)))
         listed_endpoints
  = [("GET", "/api/alert")] /\
  handle (Flask.mkRequest "GET" "/api/alert" q) w
  = (Raised (Exception "NotFound" "404 Not Found"), w) /\
  ~ In alert_path (map snd listed_endpoints).
Proof.
  split; [reflexivity |]. split; [reflexivity |].
  cbv. intuition discriminate.
Qed.

(** X18: each route serves the method of its decorator only: any other
    method (but [HEAD] and [OPTIONS], which Flask answers itself) on the
    path of a route raises [MethodNotAllowed], and no handler runs; so
    [/api/hello] refuses GET and the four other paths refuse POST. *)
Theorem route_methods_exclusive
  (r : Flask.route world) (m : string) (q : list (string * string))
  (w : world) :
  In r setup_routes -> ~ In m (Flask.r_methods r) ->
  m <> "HEAD" -> m <> "OPTIONS" ->
  handle (Flask.mkRequest m (Flask.r_rule r) q) w
  = (Raised (Exception "MethodNotAllowed" "405 Method Not Allowed"), w).
Proof.
  intros Hr Hm _ _. apply dispatch_method_not_allowed.
  - exists r. split; [exact Hr |]. cbn [Flask.req_path].
    rewrite matches_path_static
      by (exact (proj1 (Forall_forall _ _) setup_rules_static r Hr)).
    apply String.eqb_refl.
  - cbn [Flask.req_path Flask.req_method]. intros r' Hr' Hmatch.
    rewrite matches_path_static in Hmatch
      by (exact (proj1 (Forall_forall _ _) setup_rules_static r' Hr')).
    apply String.eqb_eq in Hmatch.
    assert (r' = r) as ->.
    { destruct Hr as [<- | [<- | [<- | [<- | [<- | []]]]]];
        destruct Hr' as [<- | [<- | [<- | [<- | [<- | []]]]]];
        first [reflexivity | discriminate Hmatch]. }
    unfold Flask.allows.
    destruct (existsb (String.eqb m) (Flask.r_methods r)) eqn:He;
      [| reflexivity].
    exfalso. apply Hm. apply existsb_exists in He.
    destruct He as (x & Hx & Heq). apply String.eqb_eq in Heq. now subst.
Qed.

(** *** Remote metrics *)

Lemma offline_eret {A : Type} (a : A) : offline (eret a).
Proof. intros w. split; reflexivity. Qed.

Lemma offline_print (o : output) : offline (print o).
Proof. intros w. split; reflexivity. Qed.

Lemma offline_lift_result {A : Type} (r : result A) : offline (lift_result r).
Proof. intros w. split; reflexivity. Qed.

Lemma offline_ebind {A B : Type} (c : Exc A) (k : A -> Exc B) :
  offline c -> (forall a, offline (k a)) -> offline (ebind c k).
Proof.
  intros Hc Hk w. unfold ebind. specialize (Hc w).
  destruct (c w) as [[a | e] w1]; cbn [snd] in *; [| exact Hc].
  destruct (Hk a w1) as [H1 H2]. destruct Hc as [H3 H4].
  split; congruence.
Qed.

Lemma offline_print_field (label key : string) (v : pyval) :
  offline (print_field label key v).
Proof.
  unfold print_field. apply offline_ebind; [apply offline_lift_result |].
  intros x. apply offline_print.
Qed.

Lemma fetch_metrics_after_get :
  fetch_metrics = ebind (requests_get metrics_url) after_get.
Proof. reflexivity. Qed.

Lemma offline_after_get (response : http_response) :
  offline (after_get response).
Proof.
  unfold after_get. destruct (hr_status_code response =? 200);
    [| apply offline_eret].
  repeat (apply offline_ebind;
          [first [apply offline_lift_result | apply offline_print
                 | apply offline_print_field] | intros ?]).
  apply offline_eret.
Qed.

(** The try statement sends one request and uses one outcome. *)
Lemma fetch_metrics_network (w : world) :
  w_sent (snd (fetch_metrics w)) = w_sent w ++ [metrics_url] /\
  (forall k, w_net (snd (fetch_metrics w)) k = w_net w (S k)).
Proof.
  rewrite fetch_metrics_after_get. unfold ebind, requests_get.
  destruct (w_net w O) as [response | e]; [| split; reflexivity].
  match goal with
  | |- context [after_get response ?w1] =>
      destruct (offline_after_get response w1) as [Hs Hn]
  end.
  cbn [w_sent w_net] in Hs, Hn. rewrite Hs, Hn. split; reflexivity.
Qed.

Lemma get_remote_metrics_world (w : world) :
  snd (get_remote_metrics w)
  = snd (fetch_metrics
           {| w_clock := w_clock w;
              w_stdout := w_stdout w
                          ++ [Line "🌐 Making HTTP request during RUNTIME..."];
              w_net := w_net w; w_sent := w_sent w |}).
Proof.
  unfold get_remote_metrics, ebind at 1, print at 1. cbv beta iota.
  destruct (fetch_metrics _) as [[r | [| code | cls msg]] w'];
    try reflexivity.
  destruct (is_connection_error cls); reflexivity.
Qed.

(** X19: whatever the network does, the handler of [/api/metrics/remote]
    sends exactly one request, to the metrics URL, and uses one outcome of
    the network; it raises no exception of a class under [Exception]: each
    is turned into an answer. *)
Theorem remote_metrics_always_one_request (w : world) :
  w_sent (snd (get_remote_metrics w)) = w_sent w ++ [metrics_url] /\
  (forall k, w_net (snd (get_remote_metrics w)) k = w_net w (S k)) /\
  (forall cls msg,
      fst (get_remote_metrics w) <> Raised (Exception cls msg)).
Proof.
  split; [| split].
  - rewrite get_remote_metrics_world.
    now destruct (fetch_metrics_network
                    {| w_clock := w_clock w;
                       w_stdout := w_stdout w
                         ++ [Line "🌐 Making HTTP request during RUNTIME..."];
                       w_net := w_net w; w_sent := w_sent w |}) as [H _].
  - rewrite get_remote_metrics_world.
    now destruct (fetch_metrics_network
                    {| w_clock := w_clock w;
                       w_stdout := w_stdout w
                         ++ [Line "🌐 Making HTTP request during RUNTIME..."];
                       w_net := w_net w; w_sent := w_sent w |}) as [_ H].
  - intros cls msg.
    unfold get_remote_metrics, ebind at 1, print at 1. cbv beta iota.
    destruct (fetch_metrics _) as [[r | [| code | c m]] w'];
      try discriminate.
    destruct (is_connection_error c); discriminate.
Qed.

(** The handler, once [requests.get] has returned a response. *)
Lemma get_remote_metrics_on_response (w : world) (response : http_response) :
  w_net w O = Ok response ->
  fst (get_remote_metrics w)
  = match fst (after_get response
                 {| w_clock := w_clock w;
                    w_stdout := w_stdout w
                      ++ [Line "🌐 Making HTTP request during RUNTIME..."];
                    w_net := fun k => w_net w (S k);
                    w_sent := w_sent w ++ [metrics_url] |}) with
    | Ok r => Ok r
    | Raised (Exception cls msg) =>
        if is_connection_error cls then Ok connection_failed
        else Ok (Flask.jsonify (PDict [("error", PStr msg)]))
    | Raised e => Raised e
    end.
Proof.
  intros Hnet.
  unfold get_remote_metrics, ebind at 1, print at 1. cbv beta iota.
  rewrite fetch_metrics_after_get. unfold ebind at 1, requests_get.
  cbn [w_net w_clock w_stdout w_sent]. rewrite Hnet.
  destruct (after_get response _) as [[r | [| code | cls msg]] w'];
    try reflexivity.
  cbn [fst]. destruct (is_connection_error cls); reflexivity.
Qed.

(** X20: when the metrics endpoint answers with a status other than 200,
    the handler answers with the error object that repeats the status
    code. *)
Theorem remote_metrics_bad_status
  (q : list (string * string)) (w : world) (response : http_response) :
  w_net w O = Ok response -> hr_status_code response <> 200 ->
  fst (handle (Flask.mkRequest "GET" remote_path q) w)
  = Ok (Flask.jsonify
          (PDict [("error", PStr "Failed to fetch metrics");
                  ("status_code", PInt (hr_status_code response))])).
Proof.
  intros Hnet Hcode. rewrite ServerTestFacts.handle_remote.
  rewrite (get_remote_metrics_on_response w response Hnet).
  unfold after_get. apply Z.eqb_neq in Hcode. rewrite Hcode. reflexivity.
Qed.

Lemma answer_of_eret {A : Type} (a : A) : answer_of (eret a) (Ok a).
Proof. intros w. reflexivity. Qed.

Lemma answer_of_print (o : output) : answer_of (print o) (Ok tt).
Proof. intros w. reflexivity. Qed.

Lemma answer_of_lift_result {A : Type} (r : result A) :
  answer_of (lift_result r) r.
Proof. intros w. reflexivity. Qed.

Lemma answer_of_ebind_ok {A B : Type} (c : Exc A) (k : A -> Exc B)
  (a : A) (r : result B) :
  answer_of c (Ok a) -> answer_of (k a) r -> answer_of (ebind c k) r.
Proof.
  intros Hc Hk w. unfold ebind. specialize (Hc w).
  destruct (c w) as [[a' | e] w1]; cbn [fst] in Hc; [| discriminate].
  injection Hc as ->. apply Hk.
Qed.

Lemma answer_of_ebind_raised {A B : Type} (c : Exc A) (k : A -> Exc B)
  (e : exn) :
  answer_of c (Raised e) -> answer_of (ebind c k) (Raised e).
Proof.
  intros Hc w. unfold ebind. specialize (Hc w).
  destruct (c w) as [[a' | e'] w1]; cbn [fst] in Hc; [discriminate |].
  injection Hc as ->. reflexivity.
Qed.

Lemma answer_of_print_field_present (label key : string)
  (d : list (string * pyval)) :
  is_missing d key = false ->
  answer_of (print_field label key (PDict d)) (Ok tt).
Proof.
  unfold is_missing. intros Hk w.
  unfold print_field, ebind, lift_result, subscript.
  destruct (dict_get key d); [reflexivity | discriminate].
Qed.

Lemma answer_of_print_field_missing (label key : string)
  (d : list (string * pyval)) :
  is_missing d key = true ->
  answer_of (print_field label key (PDict d))
            (Raised (Exception "KeyError" ("'" +++ key +++ "'"))).
Proof.
  unfold is_missing. intros Hk w.
  unfold print_field, ebind, lift_result, subscript.
  destruct (dict_get key d); [discriminate | reflexivity].
Qed.

(** The steps that print, each returning [None]. *)
Ltac printed :=
  repeat (eapply answer_of_ebind_ok;
          [first [apply answer_of_print
                 | apply answer_of_print_field_present; assumption] |]).

(** X21: when the metrics endpoint answers 200 with a JSON object that has
    the five keys the handler prints, the handler answers with that object,
    unchanged, under [data], marked as fetched over HTTP; the answer of
    [get_current_metrics] is such an object. *)
Theorem remote_metrics_wraps_body
  (q : list (string * string)) (w : world) (d : list (string * pyval)) :
  w_net w O = Ok (mkHttpResponse 200 (Ok (PDict d))) ->
  forallb (fun k => negb (is_missing d k)) printed_keys = true ->
  fst (handle (Flask.mkRequest "GET" remote_path q) w) = Ok (fetched (PDict d)).
Proof.
  intros Hnet Hkeys. rewrite ServerTestFacts.handle_remote.
  rewrite (get_remote_metrics_on_response w _ Hnet).
  cbn [forallb printed_keys] in Hkeys.
  repeat (apply andb_prop in Hkeys; destruct Hkeys as [?H Hkeys]).
  repeat match goal with
         | H : negb _ = true |- _ => apply negb_true_iff in H
         end.
  assert (Ha : answer_of (after_get (mkHttpResponse 200 (Ok (PDict d))))
                         (Ok (fetched (PDict d)))).
  { unfold after_get. cbn [hr_status_code hr_json Z.eqb Pos.eqb].
    eapply answer_of_ebind_ok; [apply answer_of_lift_result |].
    printed. apply answer_of_eret. }
  now rewrite Ha.
Qed.

(** X22: when the metrics endpoint answers 200 with a JSON object that
    lacks one of the five keys, the handler answers with an error object
    whose text is the first missing key, in quotes, in the order the
    handler reads them. *)
Theorem remote_metrics_missing_key
  (q : list (string * string)) (w : world) (d : list (string * pyval))
  (k : string) :
  w_net w O = Ok (mkHttpResponse 200 (Ok (PDict d))) ->
  find (is_missing d) printed_keys = Some k ->
  fst (handle (Flask.mkRequest "GET" remote_path q) w)
  = Ok (Flask.jsonify (PDict [("error", PStr ("'" +++ k +++ "'"))])).
Proof.
  intros Hnet Hfind. rewrite ServerTestFacts.handle_remote.
  rewrite (get_remote_metrics_on_response w _ Hnet).
  assert (Ha : answer_of (after_get (mkHttpResponse 200 (Ok (PDict d))))
                         (Raised (Exception "KeyError" ("'" +++ k +++ "'")))).
  { unfold after_get. cbn [hr_status_code hr_json Z.eqb Pos.eqb].
    eapply answer_of_ebind_ok; [apply answer_of_lift_result |].
    cbn [find printed_keys] in Hfind.
    repeat match type of Hfind with
           | context [is_missing d ?key] =>
               let Hm := fresh "Hm" in
               destruct (is_missing d key) eqn:Hm;
               [ injection Hfind as <-; printed;
                 apply answer_of_ebind_raised;
                 apply answer_of_print_field_missing; assumption
               | ]
           end.
    discriminate Hfind. }
  now rewrite Ha.
Qed.

(** X23: an exception under [Exception] that is no connection error,
    raised by [requests.get] or by the decoding of the body, is turned into
    an answer whose [error] field is the text of the exception. *)
Theorem remote_metrics_other_exception
  (q : list (string * string)) (w : world) (cls msg : string) :
  w_net w O = Raised (Exception cls msg) \/
  w_net w O = Ok (mkHttpResponse 200 (Raised (Exception cls msg))) ->
  is_connection_error cls = false ->
  fst (handle (Flask.mkRequest "GET" remote_path q) w)
  = Ok (Flask.jsonify (PDict [("error", PStr msg)])).
Proof.
  intros [Hnet | Hnet] Hcls; rewrite ServerTestFacts.handle_remote.
  - unfold get_remote_metrics, ebind at 1, print at 1. cbv beta iota.
    rewrite fetch_metrics_after_get. unfold ebind at 1, requests_get.
    cbn [w_net w_clock w_stdout w_sent]. rewrite Hnet, Hcls. reflexivity.
  - rewrite (get_remote_metrics_on_response w _ Hnet).
    unfold after_get. cbn [hr_status_code hr_json Z.eqb Pos.eqb].
    unfold ebind, lift_result. cbn [fst]. rewrite Hcls. reflexivity.
Qed.

(** *** Metrics *)

Lemma string_compare_refl (s : string) : String.compare s s = Eq.
Proof.
  induction s as [|c s IH]; cbn; [reflexivity |].
  now rewrite ascii_compare_refl.
Qed.

(** The texts [strftime] gives are ordered as the readings cut to the
    second. *)
Lemma strftime_metrics_compare (d1 d2 : datetime) :
  valid_datetime d1 -> valid_datetime d2 ->
  String.compare (strftime_metrics d1) (strftime_metrics d2)
  = lex_compare (to_second d1) (to_second d2).
Proof.
  intros (Y1 & M1 & D1 & H1 & N1 & S1 & U1) (Y2 & M2 & D2 & H2 & N2 & S2 & U2).
  unfold strftime_metrics.
  rewrite !fmt_0d_digits by (cbn; lia).
  unfold to_second. cbn [lex_compare].
  repeat (rewrite compare_digits_app by (cbn; lia);
          cbn [String.append]; rewrite ?compare_cons_same).
  reflexivity.
Qed.

(** X24: the timestamp of [/api/metrics] has no fraction of a second: two
    answers are equal exactly when the clock readings they were made from
    (of a year of four digits) agree down to the second. *)
Theorem metrics_answers_to_the_second (w1 w2 : world) :
  valid_datetime (w_clock w1 O) -> valid_datetime (w_clock w2 O) ->
  1000 <= year (w_clock w1 O) -> 1000 <= year (w_clock w2 O) ->
  (fst (get_current_metrics w1) = fst (get_current_metrics w2) <->
   to_second (w_clock w1 O) = to_second (w_clock w2 O)).
Proof.
  intros V1 V2 _ _. rewrite !ServerTestFacts.get_current_metrics_answer.
  split.
  - intros H. injection H as H.
    apply EnvSetupMore.lex_compare_eq.
    rewrite <- (strftime_metrics_compare _ _ V1 V2), H.
    apply string_compare_refl.
  - intros H. unfold to_second in H.
    injection H as Hy Hm Hd Hh Hn Hs.
    unfold metrics_data_at, strftime_metrics.
    now rewrite Hy, Hm, Hd, Hh, Hn, Hs.
Qed.

(** *** Concrete runs *)


Lemma route_methods_exclusive_witness :
  handle (Flask.mkRequest "GET" "/api/hello" []) refused_world
  = (Raised (Exception "MethodNotAllowed" "405 Method Not Allowed"),
     refused_world).
Proof.
  apply (route_methods_exclusive
           (Flask.mkRoute "/api/hello" ["POST"]
              (Flask.View0 "post_hello" post_hello))
           "GET" [] refused_world).
  - do 4 right. left. reflexivity.
  - cbv. intuition discriminate.
  - discriminate.
  - discriminate.
Defined.

Lemma remote_metrics_bad_status_witness :
  fst (handle (Flask.mkRequest "GET" remote_path [])
         (world_answering (Ok (mkHttpResponse 503 (Raised (Exception
            "JSONDecodeError" "Expecting value"))))))
  = Ok (Flask.jsonify
          (PDict [("error", PStr "Failed to fetch metrics");
                  ("status_code", PInt 503)])).
Proof.
  apply (remote_metrics_bad_status []
           (world_answering (Ok (mkHttpResponse 503 (Raised (Exception
              "JSONDecodeError" "Expecting value")))))
           (mkHttpResponse 503 (Raised (Exception "JSONDecodeError"
                                          "Expecting value"))));
    [reflexivity | discriminate].
Defined.

(** X21 on the body [get_current_metrics] answers with. *)
Lemma remote_metrics_wraps_body_witness :
  fst (handle (Flask.mkRequest "GET" remote_path [])
         (world_answering
            (Ok (mkHttpResponse 200
                   (Ok (PDict (metrics_data_at
                                 (mkDatetime 2024 11 3 1 0 0 0))))))))
  = Ok (fetched (PDict (metrics_data_at (mkDatetime 2024 11 3 1 0 0 0)))).
Proof.
  apply (remote_metrics_wraps_body []
           (world_answering
              (Ok (mkHttpResponse 200
                     (Ok (PDict (metrics_data_at
                                   (mkDatetime 2024 11 3 1 0 0 0)))))))
           (metrics_data_at (mkDatetime 2024 11 3 1 0 0 0)));
    reflexivity.
Defined.

Lemma remote_metrics_missing_key_witness :
  fst (handle (Flask.mkRequest "GET" remote_path [])
         (world_answering
            (Ok (mkHttpResponse 200
                   (Ok (PDict [("cpu_usage", PStr "1%");
                               ("uptime", PStr "2 days")]))))))
  = Ok (Flask.jsonify (PDict [("error", PStr "'memory_usage'")])).
Proof.
  apply (remote_metrics_missing_key []
           (world_answering
              (Ok (mkHttpResponse 200
                     (Ok (PDict [("cpu_usage", PStr "1%");
                                 ("uptime", PStr "2 days")])))))
           [("cpu_usage", PStr "1%"); ("uptime", PStr "2 days")]
           "memory_usage");
    reflexivity.
Defined.

Lemma remote_metrics_other_exception_witness :
  fst (handle (Flask.mkRequest "GET" remote_path [])
         (world_answering
            (Ok (mkHttpResponse 200
                   (Raised (Exception "JSONDecodeError"
                                      "Expecting value"))))))
  = Ok (Flask.jsonify (PDict [("error", PStr "Expecting value")])).
Proof.
  apply (remote_metrics_other_exception []
           (world_answering
              (Ok (mkHttpResponse 200
                     (Raised (Exception "JSONDecodeError"
                                        "Expecting value")))))
           "JSONDecodeError" "Expecting value");
    [right; reflexivity | reflexivity].
Defined.

Lemma metrics_answers_to_the_second_witness :
  fst (get_current_metrics refused_world)
  = fst (get_current_metrics
           (world_answering (Raised KeyboardInterrupt))) <->
  to_second (w_clock refused_world O)
  = to_second (w_clock (world_answering (Raised KeyboardInterrupt)) O).
Proof.
  apply (metrics_answers_to_the_second refused_world
           (world_answering (Raised KeyboardInterrupt)));
    cbv; intuition discriminate.
Defined.

End ServerTestMore.
